(** * Tentacle3D backend: image-to-3D relay (backend/main.py)

    A shallow embedding of the FastAPI relay: the image normaliser, the
    Tripo3D client, the three request handlers and the background poller,
    followed by the properties of the specification that concern them.

    Library code (Pillow, pydantic, httpx, the remote service) is outside
    the repository: it enters the model as interfaces whose operations may
    raise, and the remote service as an arbitrary function of the request. *)

From Stdlib Require Import ZArith String List Lia Bool.
From stdpp Require Import base gmap strings.

Set Warnings "-register-all".

Local Open Scope string_scope.
Local Open Scope list_scope.
Local Open Scope Z_scope.

(** ** Python values and exceptions *)

Abbreviation bytes := (list Byte.byte).

(** What [response.json()] can return. Object members keep their order, as a
    Python dict does. A float is kept as its literal. *)
Inductive json :=
| JNull
| JBool (b : bool)
| JInt (z : Z)
| JFloat (lit : string)
| JStr (s : string)
| JArr (l : list json)
| JObj (d : list (string * json)).

(** Exceptions other than HTTPException. *)
Inductive pyerr :=
| TypeError
| KeyError (k : string)
| IndexError
| AttributeError
| ValueError
| ValidationError
| JSONDecodeError
| OtherError (name msg : string).

Inductive TaskStatus := QUEUED | RUNNING | SUCCESS | FAILED.

(** The pieces of an f-string: literal text and formatted values. *)
Inductive frag :=
| Lit (s : string)
| FmtJson (j : json)
| FmtInt (z : Z)
| FmtStr (s : string)
| FmtOptStr (s : option string)
| FmtStatus (s : TaskStatus)
| FmtKeys (ks : list string)
| FmtErr (e : pyerr).

Inductive exn :=
| HTTPException (status_code : Z) (detail : list frag)
| PyErr (e : pyerr).

Inductive res (E A : Type) :=
| Ret (a : A)
| Raise (e : E).
Arguments Ret {E A} a.
Arguments Raise {E A} e.

Definition bind {E A B} (m : res E A) (k : A -> res E B) : res E B :=
  match m with
  | Ret a => k a
  | Raise e => Raise e
  end.

Notation "'let!' x ':=' m 'in' k" := (bind m (fun x => k))
  (at level 10, x name, m at level 100, k at level 200).

Abbreviation pyres := (res pyerr).
Abbreviation hres := (res exn).

(** A call that can only raise a plain Python exception, inside code that
    can also raise HTTPException. *)
Definition lift {A} (m : pyres A) : hres A :=
  match m with
  | Ret a => Ret a
  | Raise e => Raise (PyErr e)
  end.

(** *** Operators on parsed JSON *)

Definition dict := (list (string * json)).

Fixpoint dict_get (k : string) (d : dict) : option json :=
  match d with
  | [] => None
  | (k', v) :: d' => if String.eqb k' k then Some v else dict_get k d'
  end.

Definition dict_has (k : string) (d : dict) : bool :=
  match dict_get k d with
  | Some _ => true
  | None => false
  end.

Definition dict_keys (d : dict) : list string := map fst d.

Fixpoint is_substring (needle hay : string) : bool :=
  String.prefix needle hay
  || match hay with
     | EmptyString => false
     | String _ rest => is_substring needle rest
     end.

Definition eq_str (s : string) (j : json) : bool :=
  match j with
  | JStr s' => String.eqb s s'
  | _ => false
  end.

(** [k in x]: key of a dict, element of a list, substring of a string;
    TypeError for a value that is not iterable. *)
Definition py_in (k : string) (x : json) : pyres bool :=
  match x with
  | JObj d => Ret (dict_has k d)
  | JArr l => Ret (existsb (eq_str k) l)
  | JStr s => Ret (is_substring k s)
  | _ => Raise TypeError
  end.

(** [x[k]] for a string [k]: only a dict can be indexed by a string. *)
Definition py_getitem (x : json) (k : string) : pyres json :=
  match x with
  | JObj d =>
      match dict_get k d with
      | Some v => Ret v
      | None => Raise (KeyError k)
      end
  | _ => Raise TypeError
  end.

(** [d.get(k)] on a dict: None when the key is absent. *)
Definition py_get (d : dict) (k : string) : json :=
  match dict_get k d with
  | Some v => v
  | None => JNull
  end.

Definition is_dict (x : json) : bool :=
  match x with JObj _ => true | _ => false end.

Definition is_str (x : json) : bool :=
  match x with JStr _ => true | _ => false end.

(** Truth value of an optional string: None and the empty string are false. *)
Definition truthy_ostr (s : option string) : bool :=
  match s with
  | Some s => negb (String.eqb s "")
  | None => false
  end.

(** Truth value of an optional int: None and 0 are false. *)
Definition truthy_oint (z : option Z) : bool :=
  match z with
  | Some z => negb (z =? 0)
  | None => false
  end.

(** [s == v] for an optional string [s]. *)
Definition ostr_eqb (s : option string) (v : string) : bool :=
  match s with
  | Some s => String.eqb s v
  | None => false
  end.

Definition ostr_json (s : option string) : json :=
  match s with Some s => JStr s | None => JNull end.

Definition oint_json (z : option Z) : json :=
  match z with Some z => JInt z | None => JNull end.

(** [d[k] = v] for a key that [d] does not hold yet. *)
Definition dict_set (d : dict) (k : string) (v : json) : dict :=
  (d ++ [(k, v)])%list.

(** ** Pillow *)

(** The operations of Pillow that the normaliser calls. Methods that work in
    place ([paste], [thumbnail]) return the updated image. *)
Class PIL := {
  Image : Type;
  Image_open : bytes -> pyres Image;
  mode : Image -> string;
  size : Image -> Z * Z;
  has_transparency : Image -> bool;
  convert : Image -> string -> pyres Image;
  Image_new : string -> Z * Z -> Z * Z * Z -> pyres Image;
  split : Image -> pyres (list Image);
  paste : Image -> Image -> Image -> pyres Image;
  thumbnail : Image -> Z * Z -> string -> pyres Image;
  save_jpeg : Image -> Z -> bool -> pyres bytes;
}.

Definition max_dim (s : Z * Z) : Z := Z.max (fst s) (snd s).

(** Each new dimension is within one pixel of the exact scaling of the old
    one, stated without division. *)
Definition aspect_within_rounding (old new : Z * Z) : Prop :=
  Z.abs (fst new * snd old - snd new * fst old) <= max_dim old.

(** Modelled from the spec: Pillow's [Image.convert], [Image.new],
    [Image.paste] and [Image.thumbnail], which are not part of the
    repository. Conversion, creation and pasting keep the size they are
    given; [thumbnail] is the spec's "downscale preserving aspect ratio ...
    so neither dimension exceeds the maximum". *)
Class PILSpec `{PIL} := {
  convert_size : forall img m img',
    convert img m = Ret img' -> size img' = size img;
  Image_new_size : forall m s c img,
    Image_new m s c = Ret img -> size img = s;
  paste_size : forall bg src mask bg',
    paste bg src mask = Ret bg' -> size bg' = size bg;
  thumbnail_fits : forall img box resample img',
    thumbnail img box resample = Ret img' ->
    fst (size img') <= fst box /\ snd (size img') <= snd box;
  thumbnail_aspect : forall img box resample img',
    thumbnail img box resample = Ret img' ->
    aspect_within_rounding (size img) (size img');
}.

Section Normalizer.
Context `{PIL}.

Definition mode_in (m : string) (ms : list string) : bool :=
  existsb (String.eqb m) ms.

(** [l[-1]] and [l[1]] on the list of bands. *)
Definition last_band (l : list Image) : pyres Image :=
  match rev l with
  | b :: _ => Ret b
  | [] => Raise IndexError
  end.

Definition second_band (l : list Image) : pyres Image :=
  match l with
  | _ :: b :: _ => Ret b
  | _ => Raise IndexError
  end.

(** Lines 80-95: flatten to RGB (or keep L). *)
Definition to_rgb (img : Image) : pyres Image :=
  if mode_in (mode img) ["RGBA"; "P"; "LA"] then
    let! img := (if String.eqb (mode img) "P" && has_transparency img
                 then convert img "RGBA" else Ret img) in
    if mode_in (mode img) ["RGBA"; "LA"] then
      let! background := Image_new "RGB" (size img) (255, 255, 255) in
      if String.eqb (mode img) "RGBA" then
        let! bands := split img in
        let! mask := last_band bands in
        paste background img mask
      else
        let! bands := split img in
        let! mask := second_band bands in
        paste background img mask
    else convert img "RGB"
  else if negb (mode_in (mode img) ["RGB"; "L"]) then convert img "RGB"
  else Ret img.

(** Lines 97-99: resize if too large. *)
Definition resize_if_large (img : Image) (max_size : Z) : pyres Image :=
  if max_dim (size img) >? max_size
  then thumbnail img (max_size, max_size) "LANCZOS"
  else Ret img.

(** Lines 101-111: JPEG at quality 85, once more at 70 above 5 MB. *)
Definition encode (img : Image) : pyres bytes :=
  let! result_data := save_jpeg img 85 true in
  if Z.of_nat (length result_data) >? 5 * 1024 * 1024
  then save_jpeg img 70 true
  else Ret result_data.

(** The image that reaches the encoder. *)
Definition normalized_image (image_data : bytes) (max_size : Z)
  : pyres Image :=
  let! img := Image_open image_data in
  let! img := to_rgb img in
  resize_if_large img max_size.

(** The body of the [try]. *)
Definition optimize_body (image_data : bytes) (max_size : Z) : pyres bytes :=
  let! img := normalized_image image_data max_size in
  encode img.

Definition optimize_image_for_upload (image_data : bytes) (max_size : Z)
  : bytes :=
  match optimize_body image_data max_size with
  | Ret result_data => result_data
  | Raise _ => image_data
  end.

End Normalizer.

(** ** Data model (lines 27-46) *)

Record ImageTo3DRequest := {
  model_version : option string;
  style : option string;
  texture_resolution : option Z;
  remesh : option string;
}.

Record TaskResponse := {
  task_id : string;
  status : TaskStatus;
  input : option dict;
  output : option dict;
  progress : option Z;
  created_time : option Z;
}.

(** [TaskStatus(value)]: lookup of an enumeration member by value. *)
Definition TaskStatus_of (v : json) : pyres TaskStatus :=
  match v with
  | JStr s =>
      if String.eqb s "queued" then Ret QUEUED
      else if String.eqb s "running" then Ret RUNNING
      else if String.eqb s "success" then Ret SUCCESS
      else if String.eqb s "failed" then Ret FAILED
      else Raise ValueError
  | _ => Raise ValueError
  end.

(** *** pydantic field validation

    Values arrive from parsed JSON. A [str] field takes a str and nothing
    else, an [Optional[Dict[str, Any]]] field a dict or None (pydantic 2 does
    not coerce either). What an [Optional[int]] field accepts besides an int
    is left to the library. *)
Class Pydantic := {
  validate_int : json -> pyres Z;
}.

Definition validate_str (v : json) : pyres string :=
  match v with
  | JStr s => Ret s
  | _ => Raise ValidationError
  end.

Definition validate_opt_dict (v : json) : pyres (option dict) :=
  match v with
  | JNull => Ret None
  | JObj d => Ret (Some d)
  | _ => Raise ValidationError
  end.

Definition validate_opt_int `{Pydantic} (v : json) : pyres (option Z) :=
  match v with
  | JNull => Ret None
  | _ => let! z := validate_int v in Ret (Some z)
  end.

(** ** The remote service, seen through httpx *)

Record Response := {
  status_code : Z;
  text : string;
  content : bytes;
  json_body : option json;
}.

(** [response.json()] *)
Definition response_json (r : Response) : pyres json :=
  match json_body r with
  | Some j => Ret j
  | None => Raise JSONDecodeError
  end.

(** Outcome of one request: a response, [httpx.TimeoutException], or another
    [httpx.RequestError] with its message. *)
Inductive transport :=
| Responded (r : Response)
| TimedOut
| RequestFailed (msg : string).

(** What becomes of [os.makedirs] and the write of the downloaded file: the
    file is saved, or an error is raised, before the file exists
    ([left = None]: [makedirs] or [open] raised) or after [open] created it,
    with what was written until then ([left = Some partial]). *)
Inductive disk :=
| Saved
| Failed (e : pyerr) (left : option bytes).

(** The world outside the process at the time of a call: the four endpoints,
    each answering as it pleases to the bearer key and the request it is
    sent, and the local disk. Fetching a URL can also raise an exception
    that is no [httpx.RequestError] ([httpx.InvalidURL] for a malformed
    URL). *)
Record Remote := {
  post_upload : string -> string -> bytes -> transport;
  post_task : string -> json -> transport;
  get_task : string -> string -> transport;
  get_url : json -> pyres transport;
  disk_write : string -> bytes -> disk;
}.

(** ** Tripo3DClient (lines 117-321) *)

Module Tripo3DClient.

Record t := { api_key : string }.

Section Methods.
Context `{PIL} `{Pydantic}.
Variable R : Remote.

(** Lines 159-161: [for key in [...]: if key in data: return data[key]]. *)
Fixpoint probe_keys (keys : list string) (data : json)
  : pyres (option json) :=
  match keys with
  | [] => Ret None
  | key :: keys' =>
      let! present := py_in key data in
      if present : bool then
        let! v := py_getitem data key in Ret (Some v)
      else probe_keys keys' data
  end.

(** Lines 155-173: find the token in a parsed upload response. *)
Definition extract_token (result : json) : hres json :=
  let not_found :=
    Raise (HTTPException 500
             [Lit "Could not extract token from upload response: ";
              FmtJson result]) in
  let! has_data := lift (py_in "data" result) in
  if has_data : bool then
    let! data := lift (py_getitem result "data") in
    if is_dict data then
      let! found := lift (probe_keys ["image_token"; "token"; "file_token"]
                            data) in
      match found with
      | Some token => Ret token
      | None => not_found
      end
    else if is_str data then Ret data
    else not_found
  else
    let! has_token := lift (py_in "token" result) in
    if has_token : bool then lift (py_getitem result "token")
    else
      let! has_image_token := lift (py_in "image_token" result) in
      if has_image_token : bool then lift (py_getitem result "image_token")
      else not_found.

(** Lines 152-180: what is made of the upload response. *)
Definition upload_response (response : Response) : hres json :=
  if status_code response =? 200 then
    let! result := lift (response_json response) in
    extract_token result
  else
    Raise (HTTPException (status_code response)
             [Lit "Upload failed: Status "; FmtInt (status_code response);
              Lit ", Response: "; FmtStr (text response)]).

Definition upload_image (self : t) (image_data : bytes) (filename : string)
  : hres json :=
  let optimized_image := optimize_image_for_upload image_data 1024 in
  match post_upload R (api_key self) filename optimized_image with
  | Responded response => upload_response response
  | TimedOut => Raise (HTTPException 408 [Lit "Upload timeout"])
  | RequestFailed msg =>
      Raise (HTTPException 500 [Lit "Upload request failed: "; FmtStr msg])
  end.

(** Lines 200-209: the parameters that go into "extra". *)
Definition extra_of (request_params : ImageTo3DRequest) : dict :=
  let extra := [] in
  let extra :=
    if truthy_ostr (model_version request_params)
    then dict_set extra "model_version"
           (ostr_json (model_version request_params))
    else extra in
  let extra :=
    if truthy_ostr (style request_params)
       && negb (ostr_eqb (style request_params) "none")
    then dict_set extra "style" (ostr_json (style request_params))
    else extra in
  let extra :=
    if truthy_oint (texture_resolution request_params)
    then dict_set extra "texture_resolution"
           (oint_json (texture_resolution request_params))
    else extra in
  let extra :=
    if truthy_ostr (remesh request_params)
       && negb (ostr_eqb (remesh request_params) "none")
    then dict_set extra "remesh" (ostr_json (remesh request_params))
    else extra in
  extra.

(** Lines 192-212. *)
Definition task_payload (file_token : json)
    (request_params : ImageTo3DRequest) : json :=
  let payload :=
    [("type", JStr "image_to_model");
     ("file", JObj [("type", JStr "image"); ("file_token", file_token)])] in
  let extra := extra_of request_params in
  match extra with
  | [] => JObj payload
  | _ => JObj (dict_set payload "extra" (JObj extra))
  end.

(** Lines 238-247: [data.task_id], else top-level [task_id]. *)
Definition extract_task_id (result : json) : hres json :=
  let! has_data := lift (py_in "data" result) in
  let! nested :=
    (if has_data : bool then
       let! data := lift (py_getitem result "data") in
       lift (py_in "task_id" data)
     else Ret false) in
  if nested : bool then
    let! data := lift (py_getitem result "data") in
    lift (py_getitem data "task_id")
  else
    let! top := lift (py_in "task_id" result) in
    if top : bool then lift (py_getitem result "task_id")
    else
      Raise (HTTPException 500
               [Lit "Could not extract task_id from response: ";
                FmtJson result]).

Definition create_task (self : t) (file_token : json)
    (request_params : ImageTo3DRequest) : hres json :=
  match post_task R (api_key self) (task_payload file_token request_params)
  with
  | Responded response =>
      if negb (status_code response =? 200) then
        Raise (HTTPException (status_code response)
                 [Lit "Failed to create task: Status ";
                  FmtInt (status_code response);
                  Lit ", Response: "; FmtStr (text response)])
      else
        let! result := lift (response_json response) in
        extract_task_id result
  | TimedOut => Raise (HTTPException 408 [Lit "Task creation timeout"])
  | RequestFailed msg =>
      Raise (HTTPException 500
               [Lit "Task creation request failed: "; FmtStr msg])
  end.

(** Lines 280-289: the snapshot built from [data]. The status is looked
    up before the other fields are read. *)
Definition snapshot_of (task_id : string) (data : json)
  : pyres TaskResponse :=
  let! raw_status := py_getitem data "status" in
  let! status := TaskStatus_of raw_status in
  match data with
  | JObj d =>
      let! input := validate_opt_dict (py_get d "input") in
      let! output := validate_opt_dict (py_get d "output") in
      let! progress := validate_opt_int (py_get d "progress") in
      let! created_time := validate_opt_int (py_get d "created_time") in
      Ret {| task_id := task_id; status := status; input := input;
             output := output; progress := progress;
             created_time := created_time |}
  | _ => Raise TypeError
  end.

(** Lines 266-289: what is made of the status response. *)
Definition status_response (task_id : string) (response : Response)
  : hres TaskResponse :=
  if negb (status_code response =? 200) then
    Raise (HTTPException (status_code response)
             [Lit "Failed to get task status: Status ";
              FmtInt (status_code response);
              Lit ", Response: "; FmtStr (text response)])
  else
    let! result := lift (response_json response) in
    let! has_data := lift (py_in "data" result) in
    if negb has_data then
      Raise (HTTPException 500
               [Lit "Invalid task status response format: ";
                FmtJson result])
    else
      let! data := lift (py_getitem result "data") in
      lift (snapshot_of task_id data).

Definition get_task_status (self : t) (task_id : string)
  : hres TaskResponse :=
  match get_task R (api_key self) task_id with
  | Responded response => status_response task_id response
  | TimedOut => Raise (HTTPException 408 [Lit "Status check timeout"])
  | RequestFailed msg =>
      Raise (HTTPException 500
               [Lit "Status check request failed: "; FmtStr msg])
  end.

(** Lines 296-321: fetch the file and write it under downloads/. Only a
    str is a usable URL. The errors of the disk are not caught here. *)
Definition download_file (self : t) (url : json) (filename : string)
    (files : gmap string bytes) : hres string * gmap string bytes :=
  match url with
  | JStr _ =>
      match get_url R url with
      | Ret (Responded response) =>
          if negb (status_code response =? 200) then
            (Raise (HTTPException (status_code response)
                      [Lit "Failed to download file: Status ";
                       FmtInt (status_code response)]), files)
          else
            let file_path := ("downloads/" ++ filename)%string in
            match disk_write R file_path (content response) with
            | Saved =>
                (Ret file_path, <[file_path := content response]> files)
            | Failed e None => (Raise (PyErr e), files)
            | Failed e (Some partial) =>
                (Raise (PyErr e), <[file_path := partial]> files)
            end
      | Ret TimedOut =>
          (Raise (HTTPException 408 [Lit "Download timeout"]), files)
      | Ret (RequestFailed msg) =>
          (Raise (HTTPException 500
                    [Lit "Download request failed: "; FmtStr msg]), files)
      | Raise e => (Raise (PyErr e), files)
      end
  | _ => (Raise (PyErr TypeError), files)
  end.

End Methods.
End Tripo3DClient.

(** ** Request handlers and the background poller (lines 337-523) *)

(** The upload as the framework hands it over: declared content type and size,
    file name, and the bytes that [file.read()] yields. *)
Record UploadFile := {
  content_type : option string;
  file_size : option Z;
  filename : option string;
  file_read : bytes;
}.

(** What the handlers share: the task map (line 74), the background tasks
    scheduled so far, and the files written under downloads/. *)
Record World := {
  task_storage : gmap string TaskResponse;
  background_tasks : list string;
  files : gmap string bytes;
}.

Record FileResponse := {
  path : string;
  media_type : string;
  download_name : string;
}.

Definition terminal (s : TaskStatus) : bool :=
  match s with
  | SUCCESS | FAILED => true
  | _ => false
  end.

Definition TaskStatus_eqb (a b : TaskStatus) : bool :=
  match a, b with
  | QUEUED, QUEUED | RUNNING, RUNNING | SUCCESS, SUCCESS | FAILED, FAILED =>
      true
  | _, _ => false
  end.

Definition max_attempts : Z := 120.

(** One thing the poller does: a status query with its outcome, a sleep, or
    the warning that monitoring timed out. *)
Inductive event :=
| Polled (r : hres TaskResponse)
| Slept (seconds : Z)
| Warned_timeout.

Inductive flow := Break | Continue.

Record PollState := {
  attempt : Z;
  storage : gmap string TaskResponse;
  trace : list event;
}.

Section Handlers.
Context `{PIL} `{Pydantic}.
(** [tripo3d_client] (lines 323-326): None without an API key. *)
Variable tripo3d_client : option Tripo3DClient.t.

(** [except HTTPException: raise] / [except Exception as e: raise
    HTTPException(500, ...)]. *)
Definition guard {A} (prefix : list frag) (r : hres A) : hres A :=
  match r with
  | Raise (PyErr e) =>
      Raise (HTTPException 500 (prefix ++ [FmtErr e])%list)
  | _ => r
  end.

(** Lines 377-383. *)
Definition request_params_of (model_version : string)
    (style : option string) (texture_resolution : Z) (remesh : string)
  : ImageTo3DRequest :=
  {| model_version := Some model_version;
     style := if truthy_ostr style && negb (ostr_eqb style "none")
              then style else None;
     texture_resolution := Some texture_resolution;
     remesh := Some remesh |}.

(** Lines 368-408: the body of the [try] of the submit handler. *)
Definition convert_body (R : Remote) (client : Tripo3DClient.t) (now : Z)
    (file : UploadFile) (model_version : string) (style : option string)
    (texture_resolution : Z) (remesh : string) (w : World)
  : hres (json * World) :=
  let image_data := file_read file in
  if (length image_data =? 0)%nat then
    Raise (HTTPException 400 [Lit "Received empty file"])
  else
    let request_params :=
      request_params_of model_version style texture_resolution remesh in
    let! file_token :=
      Tripo3DClient.upload_image R client image_data
        (if truthy_ostr (filename file)
         then default "" (filename file) else "image.jpg") in
    let! task_id := Tripo3DClient.create_task R client file_token
                      request_params in
    (* TaskResponse(task_id=task_id, ...): past the str field, [task_id]
       is the string [id], which is then the key of the task map *)
    let! id := lift (validate_str task_id) in
    let task_response :=
      {| task_id := id; status := QUEUED; input := None; output := None;
         progress := None; created_time := Some now |} in
    Ret (JObj [("task_id", task_id); ("status", JStr "queued");
               ("message",
                JStr "Image uploaded and conversion task started")],
         {| task_storage := <[id := task_response]> (task_storage w);
            background_tasks := (background_tasks w ++ [id])%list;
            files := files w |}).

(** POST /convert/image-to-3d *)
Definition convert_image_to_3d (R : Remote) (now : Z) (file : UploadFile)
    (model_version : string) (style : option string)
    (texture_resolution : Z) (remesh : string) (w : World)
  : hres json * World :=
  match tripo3d_client with
  | None =>
      (Raise (HTTPException 500 [Lit "Tripo3D API key not configured"]), w)
  | Some client =>
      if negb (truthy_ostr (content_type file))
         || negb (String.prefix "image/" (default "" (content_type file)))
      then
        (Raise (HTTPException 400
                  [Lit "File must be an image. Received content type: ";
                   FmtOptStr (content_type file)]), w)
      else if truthy_oint (file_size file)
              && (default 0 (file_size file) >? 10 * 1024 * 1024)
      then
        (Raise (HTTPException 400
                  [Lit "File size too large. Maximum size is 10MB."]), w)
      else
        match guard [Lit "Internal error: "]
                (convert_body R client now file model_version style
                   texture_resolution remesh w)
        with
        | Ret (body, w') => (Ret body, w')
        | Raise e => (Raise e, w)
        end
  end.

(** GET /task/{task_id} *)
Definition get_task_status (R : Remote) (task_id : string) (w : World)
  : hres TaskResponse * World :=
  match tripo3d_client with
  | None =>
      (Raise (HTTPException 500 [Lit "Tripo3D API key not configured"]), w)
  | Some client =>
      match guard [] (Tripo3DClient.get_task_status R client task_id) with
      | Ret task_response =>
          (Ret task_response,
           {| task_storage := <[task_id := task_response]> (task_storage w);
              background_tasks := background_tasks w;
              files := files w |})
      | Raise e => (Raise e, w)
      end
  end.

(** Lines 455-478: from the fetched snapshot to the URL to download. *)
Definition download_url_of (task_response : TaskResponse) (format : string)
  : hres json :=
  if negb (TaskStatus_eqb (status task_response) SUCCESS) then
    Raise (HTTPException 400
             [Lit "Task not completed. Current status: ";
              FmtStatus (status task_response)])
  else
    match output task_response with
    | None | Some [] =>
        Raise (HTTPException 404 [Lit "3D model not found in task output"])
    | Some out =>
        if negb (dict_has "model" out) then
          Raise (HTTPException 404
                   [Lit "3D model not found in task output"])
        else
          let! model := lift (py_getitem (JObj out) "model") in
          let! model_urls := lift (py_getitem model "urls") in
          let! present := lift (py_in format model_urls) in
          if negb present then
            match model_urls with
            | JObj urls =>
                Raise (HTTPException 400
                         [Lit "Format '"; FmtStr format;
                          Lit "' not available. Available formats: ";
                          FmtKeys (dict_keys urls)])
            | _ => Raise (PyErr AttributeError)
            end
          else lift (py_getitem model_urls format)
    end.

(** GET /task/{task_id}/download *)
Definition download_3d_model (R : Remote) (task_id : string)
    (format : string) (w : World) : hres FileResponse * World :=
  match tripo3d_client with
  | None =>
      (Raise (HTTPException 500 [Lit "Tripo3D API key not configured"]), w)
  | Some client =>
      match guard []
              (let! task_response :=
                 Tripo3DClient.get_task_status R client task_id in
               download_url_of task_response format)
      with
      | Raise e => (Raise e, w)
      | Ret download_url =>
          let filename := (task_id ++ "." ++ format)%string in
          match Tripo3DClient.download_file R client download_url filename
                  (files w)
          with
          | (Ret file_path, files') =>
              (Ret {| path := file_path;
                      media_type := "application/octet-stream";
                      download_name := filename |},
               {| task_storage := task_storage w;
                  background_tasks := background_tasks w;
                  files := files' |})
          | (Raise e, files') =>
              (guard [] (Raise e),
               {| task_storage := task_storage w;
                  background_tasks := background_tasks w;
                  files := files' |})
          end
      end
  end.

(** Lines 500-520: one turn of the [while] of the poller, for the answers
    [R] of the remote service at that moment. *)
Definition monitor_iteration (R : Remote) (task_id : string)
    (st : PollState) : flow * PollState :=
  match tripo3d_client with
  | None => (Break, st)
  | Some client =>
      match Tripo3DClient.get_task_status R client task_id with
      | Ret task_response =>
          let storage' := <[task_id := task_response]> (storage st) in
          if terminal (status task_response) then
            (Break,
             {| attempt := attempt st; storage := storage';
                trace := (trace st ++ [Polled (Ret task_response)])%list |})
          else
            (Continue,
             {| attempt := attempt st + 1; storage := storage';
                trace := (trace st
                          ++ [Polled (Ret task_response); Slept 5])%list |})
      | Raise e =>
          (Continue,
           {| attempt := attempt st + 1; storage := storage st;
              trace := (trace st ++ [Polled (Raise e); Slept 5])%list |})
      end
  end.

(** The number of status queries in a trace. *)
Fixpoint queries (tr : list event) : nat :=
  match tr with
  | [] => O
  | Polled _ :: tr' => S (queries tr')
  | _ :: tr' => queries tr'
  end.

(** The [while] loop. [remote n] answers the query that follows [n] earlier
    ones. None when [fuel] turns do not reach the end of the loop. *)
Fixpoint monitor_loop (remote : nat -> Remote) (task_id : string)
    (fuel : nat) (st : PollState) : option PollState :=
  match fuel with
  | O => None
  | S fuel' =>
      if attempt st <? max_attempts then
        match monitor_iteration (remote (queries (trace st))) task_id st
        with
        | (Break, st') => Some st'
        | (Continue, st') => monitor_loop remote task_id fuel' st'
        end
      else Some st
  end.

(** Lines 522-523. *)
Definition warn_if_exhausted (st : PollState) : PollState :=
  if attempt st >=? max_attempts then
    {| attempt := attempt st; storage := storage st;
       trace := (trace st ++ [Warned_timeout])%list |}
  else st.

Definition monitor_task_progress (remote : nat -> Remote)
    (task_id : string) (fuel : nat) (task_storage : gmap string TaskResponse)
  : option PollState :=
  warn_if_exhausted
    <$> monitor_loop remote task_id fuel
          {| attempt := 0; storage := task_storage; trace := [] |}.

(** *** The handlers and pollers at work on the shared task map *)

Inductive op :=
| OpSubmit (R : Remote) (now : Z) (file : UploadFile)
    (model_version : string) (style : option string)
    (texture_resolution : Z) (remesh : string)
| OpStatus (R : Remote) (task_id : string)
| OpDownload (R : Remote) (task_id : string) (format : string)
| OpPollTurn (R : Remote) (task_id : string) (attempt : Z)
| OpMonitor (remote : nat -> Remote) (task_id : string) (fuel : nat).

Definition with_storage (w : World) (m : gmap string TaskResponse) : World :=
  {| task_storage := m; background_tasks := background_tasks w;
     files := files w |}.

Definition run_op (o : op) (w : World) : World :=
  match o with
  | OpSubmit R now file model_version style texture_resolution remesh =>
      snd (convert_image_to_3d R now file model_version style
             texture_resolution remesh w)
  | OpStatus R task_id => snd (get_task_status R task_id w)
  | OpDownload R task_id format => snd (download_3d_model R task_id format w)
  | OpPollTurn R task_id attempt =>
      with_storage w
        (storage (snd (monitor_iteration R task_id
                         {| attempt := attempt; storage := task_storage w;
                            trace := [] |})))
  | OpMonitor remote task_id fuel =>
      match monitor_task_progress remote task_id fuel (task_storage w) with
      | Some st => with_storage w (storage st)
      | None => w
      end
  end.

Definition run_ops (ops : list op) (w : World) : World :=
  fold_left (fun w o => run_op o w) ops w.

End Handlers.

(** The process starts with an empty task map. *)
Definition initial_world : World :=
  {| task_storage := ∅; background_tasks := []; files := ∅ |}.

(** ** A reference implementation of the library interfaces

    Images reduced to mode, size and a transparency flag, read from a
    six-byte header; thumbnail sizes computed in exact integer arithmetic.
    It shows that the interfaces above can be met and lets the model run on
    concrete requests. *)

Module Raster.

Record image := {
  im_mode : string;
  im_size : Z * Z;
  im_transparency : bool;
}.

Definition unidentified : pyerr :=
  OtherError "UnidentifiedImageError" "cannot identify image file".

Definition mode_of_code (b : Byte.byte) : option string :=
  match Byte.to_N b with
  | 0%N => Some "RGB"
  | 1%N => Some "RGBA"
  | 2%N => Some "P"
  | 3%N => Some "LA"
  | 4%N => Some "L"
  | 5%N => Some "CMYK"
  | _ => None
  end.

Definition word (hi lo : Byte.byte) : Z :=
  Z.of_N (Byte.to_N hi) * 256 + Z.of_N (Byte.to_N lo).

Definition byte_of (z : Z) : Byte.byte :=
  default Byte.x00 (Byte.of_N (Z.to_N (z mod 256))).

Definition open (data : bytes) : pyres image :=
  match data with
  | m :: t :: wh :: wl :: hh :: hl :: _ =>
      match mode_of_code m with
      | Some md =>
          if (0 <? word wh wl) && (0 <? word hh hl) then
            Ret {| im_mode := md; im_size := (word wh wl, word hh hl);
                   im_transparency := negb (Byte.to_N t =? 0)%N |}
          else Raise unidentified
      | None => Raise unidentified
      end
  | _ => Raise unidentified
  end.

Definition band_count (m : string) : nat :=
  if String.eqb m "RGBA" || String.eqb m "CMYK" then 4
  else if String.eqb m "RGB" then 3
  else if String.eqb m "LA" then 2
  else 1.

Definition bands (img : image) : list image :=
  repeat {| im_mode := "L"; im_size := im_size img;
            im_transparency := false |} (band_count (im_mode img)).

Definition paste_onto (bg src mask : image) : pyres image :=
  if (fst (im_size mask) =? fst (im_size src))
     && (snd (im_size mask) =? snd (im_size src))
  then Ret bg else Raise ValueError.

(** A size that fits the box: the box side along the longer edge, the other
    side scaled and rounded down, at least one pixel. *)
Definition thumbnail_size (w h bw bh : Z) : Z * Z :=
  if bw * h >=? bh * w then (Z.max (bh * w / h) 1, bh)
  else (bw, Z.max (bw * h / w) 1).

Definition shrink (img : image) (box : Z * Z) (resample : string)
  : pyres image :=
  let '(w, h) := im_size img in
  let '(bw, bh) := box in
  if (w <=? 0) || (h <=? 0) || (bw <=? 0) || (bh <=? 0) then Raise ValueError
  else if (bw >=? w) && (bh >=? h) then Ret img
  else Ret {| im_mode := im_mode img;
              im_size := thumbnail_size w h bw bh;
              im_transparency := im_transparency img |}.

Definition jpeg (img : image) (quality : Z) (optimize : bool)
  : pyres bytes :=
  if String.eqb (im_mode img) "RGB" || String.eqb (im_mode img) "L"
     || String.eqb (im_mode img) "CMYK"
  then
    Ret [byte_of (if String.eqb (im_mode img) "RGB" then 0 else 4);
         Byte.x00;
         byte_of (fst (im_size img) / 256); byte_of (fst (im_size img));
         byte_of (snd (im_size img) / 256); byte_of (snd (im_size img))]
  else Raise (OtherError "OSError" "cannot write mode as JPEG").

#[export] Instance pil : PIL := {|
  Image := image;
  Image_open := open;
  mode := im_mode;
  size := im_size;
  has_transparency := im_transparency;
  convert := fun img m =>
    Ret {| im_mode := m; im_size := im_size img; im_transparency := false |};
  Image_new := fun m s _ =>
    Ret {| im_mode := m; im_size := s; im_transparency := false |};
  split := fun img => Ret (bands img);
  paste := paste_onto;
  thumbnail := shrink;
  save_jpeg := jpeg;
|}.

(** Only an int passes for an int. *)
#[export] Instance pydantic : Pydantic := {|
  validate_int := fun v =>
    match v with
    | JInt z => Ret z
    | _ => Raise ValidationError
    end;
|}.

(** A header for an image of the given mode code and size. *)
Definition header (code : Z) (transparent : bool) (w h : Z) : bytes :=
  [byte_of code; byte_of (if transparent then 1 else 0);
   byte_of (w / 256); byte_of w; byte_of (h / 256); byte_of h].

End Raster.

(** ** Start-up and health check (lines 64-71, 323-335) *)

(** [tripo3d_client]: built when the key read from the environment is a
    non-empty string. *)
Definition tripo3d_client (TRIPO3D_API_KEY : option string)
  : option Tripo3DClient.t :=
  if truthy_ostr TRIPO3D_API_KEY
  then Some {| Tripo3DClient.api_key := default "" TRIPO3D_API_KEY |}
  else None.

(** GET / *)
Definition root (TRIPO3D_API_KEY : option string) : json :=
  JObj [("message", JStr "Tripo3D FastAPI Backend");
        ("status", JStr "running");
        ("api_configured",
         JBool (match TRIPO3D_API_KEY with
                | Some _ => true
                | None => false
                end))].

(** ** Vocabulary of the specification *)

(** Normalisation raises: decoding, flattening, resizing or encoding does. *)
Definition normalization_raises `{PIL} (image_data : bytes) (max_size : Z)
  : Prop :=
  (exists e, Image_open image_data = Raise e)
  \/ (exists img e, Image_open image_data = Ret img /\ to_rgb img = Raise e)
  \/ (exists img img' e,
        Image_open image_data = Ret img /\ to_rgb img = Ret img'
        /\ resize_if_large img' max_size = Raise e)
  \/ (exists img e,
        normalized_image image_data max_size = Ret img
        /\ encode img = Raise e).

(** The member [k] of a JSON object. *)
Definition member (k : string) (j : json) : option json :=
  match j with
  | JObj d => dict_get k d
  | _ => None
  end.

Definition str_valued (j : json) : option json :=
  if is_str j then Some j else None.

(** The six places of the specification where the token may be, in its
    order of priority. *)
Definition token_locations (result : json) : list (option json) :=
  [member "data" result ≫= member "image_token";
   member "data" result ≫= member "token";
   member "data" result ≫= member "file_token";
   member "data" result ≫= str_valued;
   member "token" result;
   member "image_token" result].

Fixpoint first_present (locations : list (option json)) : option json :=
  match locations with
  | [] => None
  | Some v :: _ => Some v
  | None :: rest => first_present rest
  end.

Definition token_not_found (result : json) : exn :=
  HTTPException 500
    [Lit "Could not extract token from upload response: "; FmtJson result].

(** The token as the specification words it: the first of the six places
    that is present, an error when none is. *)
Definition token_as_specified (result : json) : hres json :=
  match first_present (token_locations result) with
  | Some token => Ret token
  | None => Raise (token_not_found result)
  end.

(** The token by the shape of the body: with a [data] member only [data] is
    searched, the top level only without one. *)
Definition token_by_shape (d : dict) : hres json :=
  match dict_get "data" d with
  | Some (JObj data) =>
      match first_present [dict_get "image_token" data;
                           dict_get "token" data;
                           dict_get "file_token" data] with
      | Some token => Ret token
      | None => Raise (token_not_found (JObj d))
      end
  | Some (JStr s) => Ret (JStr s)
  | Some _ => Raise (token_not_found (JObj d))
  | None =>
      match first_present [dict_get "token" d; dict_get "image_token" d] with
      | Some token => Ret token
      | None => Raise (token_not_found (JObj d))
      end
  end.

(** A 200 response with the given JSON body. *)
Definition ok_response (body : json) : Response :=
  {| status_code := 200; text := ""; content := []; json_body := Some body |}.

(** A remote service that gives the same answer to every request. *)
Definition constant_remote (answer : transport) : Remote :=
  {| post_upload := fun _ _ _ => answer;
     post_task := fun _ _ => answer;
     get_task := fun _ _ => answer;
     get_url := fun _ => Ret answer;
     disk_write := fun _ _ => Saved |}.

Definition demo_client : Tripo3DClient.t :=
  {| Tripo3DClient.api_key := "key" |}.

(** A body with an empty [data] object next to a top-level token. *)
Definition token_beside_data : json :=
  JObj [("data", JObj []); ("token", JStr "abc")].

(** A JSON value that is no container: null, a boolean or a number. *)
Definition scalar (j : json) : bool :=
  match j with
  | JNull | JBool _ | JInt _ | JFloat _ => true
  | _ => false
  end.

(** A status body whose [data] is null. *)
Definition null_data_body : json := JObj [("data", JNull)].

(** [data.status] of a response body, when there is one. *)
Definition data_status (response : Response) : option json :=
  (json_body response ≫= member "data") ≫= member "status".

Definition TaskStatus_value (s : TaskStatus) : string :=
  match s with
  | QUEUED => "queued"
  | RUNNING => "running"
  | SUCCESS => "success"
  | FAILED => "failed"
  end.

Definition is_status_value (v : json) : Prop :=
  v = JStr "queued" \/ v = JStr "running" \/ v = JStr "success"
  \/ v = JStr "failed".

(** The output of a snapshot says nothing about the model. *)
Definition missing_model_info (t : TaskResponse) : Prop :=
  match output t with
  | None => True
  | Some out => dict_get "model" out = None
  end.

(** [output["model"]["urls"]], when the snapshot has it. *)
Definition model_urls (t : TaskResponse) : option json :=
  (output t ≫= dict_get "model") ≫= member "urls".

(** The same upload with another declared size. *)
Definition declaring (size : option Z) (file : UploadFile) : UploadFile :=
  {| content_type := content_type file; file_size := size;
     filename := filename file; file_read := file_read file |}.

(** The rejection of an upload for its declared size (lines 363-366). *)
Definition too_large : exn :=
  HTTPException 400 [Lit "File size too large. Maximum size is 10MB."].

(** A disk on which downloads/ has no subdirectory: a file whose name holds
    another "/" cannot be opened. *)
Definition flat_disk (file_path : string) (body : bytes) : disk :=
  if is_substring "/"
       (String.substring 10 (String.length file_path - 10) file_path)
  then Failed (OtherError "FileNotFoundError" file_path) None
  else Saved.

(** A remote service for examples: it hands out the token "tok" and the task
    id "task-1", and answers status queries with the given body. *)
Definition demo_remote (status_body : json) : Remote :=
  {| post_upload := fun _ _ _ =>
       Responded (ok_response
                    (JObj [("data", JObj [("image_token", JStr "tok")])]));
     post_task := fun _ _ =>
       Responded (ok_response
                    (JObj [("data", JObj [("task_id", JStr "task-1")])]));
     get_task := fun _ _ => Responded (ok_response status_body);
     get_url := fun _ =>
       Ret (Responded {| status_code := 200; text := "";
                         content := [Byte.x67; Byte.x6c; Byte.x54; Byte.x46];
                         json_body := None |});
     disk_write := flat_disk |}.

(** A status body with the given status and output. *)
Definition status_body (s : string) (out : json) : json :=
  JObj [("code", JInt 0);
        ("data", JObj [("task_id", JStr "task-1"); ("status", JStr s);
                       ("progress", JInt 50); ("output", out)])].

Definition glb_output : json :=
  JObj [("model", JObj [("urls", JObj [("glb", JStr "https://cdn/m.glb")])])].

(** An output whose model entry holds no urls. *)
Definition urlless_output : json := JObj [("model", JObj [])].

(** A 50x50 opaque upload that declares no size. *)
Definition demo_upload : UploadFile :=
  {| content_type := Some "image/jpeg"; file_size := None;
     filename := Some "cat.jpg"; file_read := Raster.header 0 false 50 50 |}.

(** The answer the poller gets to the query that follows [k] earlier ones. *)
Definition answer `{Pydantic} (client : Tripo3DClient.t)
    (remote : nat -> Remote) (tid : string) (k : nat) : hres TaskResponse :=
  Tripo3DClient.get_task_status (remote k) client tid.

(** The outcomes of the status queries of a trace, in order. *)
Fixpoint observations (tr : list event) : list (hres TaskResponse) :=
  match tr with
  | [] => []
  | Polled r :: tr' => r :: observations tr'
  | _ :: tr' => observations tr'
  end.

(** The last snapshot among the outcomes, errors passed over. *)
Definition last_snapshot (obs : list (hres TaskResponse))
  : option TaskResponse :=
  fold_left (fun acc r => match r with Ret t => Some t | Raise _ => acc end)
    obs None.

(** The task map that holds, for [tid], the last snapshot observed, and is
    otherwise as it was. *)
Definition tracked (storage0 : gmap string TaskResponse) (tid : string)
    (obs : list (hres TaskResponse)) : gmap string TaskResponse :=
  match last_snapshot obs with
  | Some t => <[tid := t]> storage0
  | None => storage0
  end.

(** No outcome is a snapshot with a terminal status. *)
Definition none_terminal (obs : list (hres TaskResponse)) : Prop :=
  forall t, In (Ret t) obs -> terminal (status t) = false.

Section PollerStates.
Context `{Pydantic}.
Variables (client : Tripo3DClient.t) (remote : nat -> Remote)
  (tid : string) (storage0 : gmap string TaskResponse).

(** What holds each time the loop condition is evaluated. *)
Record polling (st : PollState) : Prop := {
  polling_attempt : attempt st = Z.of_nat (queries (trace st));
  polling_budget : attempt st <= max_attempts;
  polling_answers :
    observations (trace st)
    = map (answer client remote tid) (seq 0 (queries (trace st)));
  polling_storage :
    storage st = tracked storage0 tid (observations (trace st));
  polling_live : none_terminal (observations (trace st));
}.

(** What holds when the loop is left: the budget is spent without a
    terminal status, or the last query brought the first one. *)
Record stopped (st : PollState) : Prop := {
  stopped_answers :
    observations (trace st)
    = map (answer client remote tid) (seq 0 (queries (trace st)));
  stopped_storage :
    storage st = tracked storage0 tid (observations (trace st));
  stopped_how :
    (attempt st = max_attempts /\ queries (trace st) = 120%nat
     /\ none_terminal (observations (trace st)))
    \/ (exists t,
          attempt st < max_attempts
          /\ queries (trace st) = S (Z.to_nat (attempt st))
          /\ last (trace st) = Some (Polled (Ret t))
          /\ terminal (status t) = true
          /\ answer client remote tid (Z.to_nat (attempt st)) = Ret t
          /\ forall k t', (k < Z.to_nat (attempt st))%nat ->
                          answer client remote tid k = Ret t' ->
                          terminal (status t') = false);
}.

End PollerStates.

(** A remote service whose task is queued, then running, then done.  *)
Definition progressing_remote (k : nat) : Remote :=
  match k with
  | O => demo_remote (status_body "queued" JNull)
  | S O => demo_remote (status_body "running" JNull)
  | _ => demo_remote (status_body "success" glb_output)
  end.

Definition success_snapshot : TaskResponse :=
  {| task_id := "task-1"; status := SUCCESS; input := None;
     output := Some [("model",
                      JObj [("urls",
                             JObj [("glb", JStr "https://cdn/m.glb")])])];
     progress := Some 50; created_time := None |}.

(** Every entry of the task map is stored under the id it carries. *)
Definition keyed_by_own_id (m : gmap string TaskResponse) : Prop :=
  map_Forall (fun k t => task_id t = k) m.

(** ** Further vocabulary *)

Definition task_id_not_found (result : json) : exn :=
  HTTPException 500
    [Lit "Could not extract task_id from response: "; FmtJson result].

(** [data] offers no task id: it is absent, or an object without one. *)
Definition no_nested_task_id (d : dict) : Prop :=
  dict_get "data" d = None
  \/ exists data, dict_get "data" d = Some (JObj data)
                  /\ dict_get "task_id" data = None.

(** The value sent for a string parameter: nothing for None, for the empty
    string and, where it is a sentinel, for "none". *)
Definition sent_str (sentinel : bool) (s : option string) : option json :=
  match s with
  | Some v =>
      if String.eqb v "" || (sentinel && String.eqb v "none") then None
      else Some (JStr v)
  | None => None
  end.

(** The value sent for an int parameter: nothing for None and for 0. *)
Definition sent_int (z : option Z) : option json :=
  match z with
  | Some z => if z =? 0 then None else Some (JInt z)
  | None => None
  end.

(** The entry of a parameter that is sent, none for one that is not. *)
Definition opt_entry (k : string) (v : option json) : dict :=
  match v with
  | Some v => [(k, v)]
  | None => []
  end.

(** The parameters that are set, in the order of lines 202-209. *)
Definition sent_params (p : ImageTo3DRequest) : dict :=
  opt_entry "model_version" (sent_str false (model_version p))
  ++ opt_entry "style" (sent_str true (style p))
  ++ opt_entry "texture_resolution" (sent_int (texture_resolution p))
  ++ opt_entry "remesh" (sent_str true (remesh p)).

(** [payload["extra"][k]], when it is there. *)
Definition extra_member (k : string) (payload : json) : option json :=
  member "extra" payload ≫= member k.

(** What an optional dict field reads from the member [k] of [data]. *)
Definition dict_field (k : string) (data : dict) : option dict :=
  match dict_get k data with
  | Some (JObj o) => Some o
  | _ => None
  end.

(** A status body whose [data.task_id] names another task. *)
Definition foreign_status_body : json :=
  JObj [("data", JObj [("task_id", JStr "someone-else");
                       ("status", JStr "running");
                       ("output", JNull)])].

(** The outcome is a value or an HTTPException: no other exception. *)
Definition http_only {A} (r : hres A) : Prop :=
  match r with
  | Raise (PyErr _) => False
  | _ => True
  end.

(** The snapshot stored at submission (lines 394-398). *)
Definition queued_snapshot (id : string) (now : Z) : TaskResponse :=
  {| task_id := id; status := QUEUED; input := None; output := None;
     progress := None; created_time := Some now |}.

(** The tests that the submit handler makes before it reads anything from
    the remote service (lines 355-373). *)
Definition wrong_content_type (file : UploadFile) : bool :=
  match content_type file with
  | Some ct => String.eqb ct "" || negb (String.prefix "image/" ct)
  | None => true
  end.

Definition declared_too_large (file : UploadFile) : bool :=
  match file_size file with
  | Some s => s >? 10 * 1024 * 1024
  | None => false
  end.

Definition empty_body (file : UploadFile) : bool :=
  match file_read file with
  | [] => true
  | _ => false
  end.

Definition passes_checks (file : UploadFile) : Prop :=
  wrong_content_type file = false /\ declared_too_large file = false
  /\ empty_body file = false.

(** The name under which the upload is sent (line 386). *)
Definition upload_name (file : UploadFile) : string :=
  match filename file with
  | Some name => if String.eqb name "" then "image.jpg" else name
  | None => "image.jpg"
  end.

(** An upload of 11 MB by its declaration, and one without a body. *)
Definition oversized_upload : UploadFile :=
  {| content_type := Some "image/png"; file_size := Some (11 * 1024 * 1024);
     filename := Some "big.png"; file_read := Raster.header 0 false 50 50 |}.

Definition bodiless_upload : UploadFile :=
  {| content_type := Some "image/png"; file_size := None;
     filename := Some "none.png"; file_read := [] |}.

(** A response with the given status code and text, and no JSON body. *)
Definition plain_response (code : Z) (body : string) : Response :=
  {| status_code := code; text := body; content := []; json_body := None |}.

(** An exception as a handler lets it out: an HTTPException as it is, any
    other as a 500 whose detail is the prefix and the error. *)
Definition surfaced (prefix : list frag) (e : exn) : exn :=
  match e with
  | PyErr pe => HTTPException 500 (prefix ++ [FmtErr pe])
  | _ => e
  end.

(** A remote service that times out everywhere, and one that refuses the
    key with a 401. *)
Definition silent_remote : Remote := constant_remote TimedOut.

Definition refusing_remote : Remote :=
  constant_remote (Responded (plain_response 401 "invalid api key")).

(** The seconds slept along a trace. *)
Fixpoint slept (tr : list event) : Z :=
  match tr with
  | [] => 0
  | Slept seconds :: tr' => seconds + slept tr'
  | _ :: tr' => slept tr'
  end.

(** Every scheduled poller has its task in the task map. *)
Definition scheduled_are_stored (w : World) : Prop :=
  forall id, In id (background_tasks w) -> is_Some (task_storage w !! id).

Definition not_configured : exn :=
  HTTPException 500 [Lit "Tripo3D API key not configured"].

(** The [api_configured] flag of the health check. *)
Definition api_configured (health : json) : option json :=
  member "api_configured" health.

(** A remote service that answers 200 with a body that is not JSON. *)
Definition garbled_remote : Remote :=
  constant_remote (Responded (plain_response 200 "<html>ok</html>")).

(** A trace in which every status query but the last is followed at once by
    a sleep of five seconds, and nothing comes after the timeout warning. *)
Fixpoint paced (tr : list event) : bool :=
  match tr with
  | [] => true
  | [Polled _] => true
  | [Warned_timeout] => true
  | Polled _ :: Slept 5 :: tr' => paced tr'
  | _ => false
  end.

(** The trace of the given outcomes, each followed by its sleep. *)
Definition rounds (rs : list (hres TaskResponse)) : list event :=
  concat (map (fun r => [Polled r; Slept 5]) rs).

(** * Properties *)

(** ** Generic facts *)

Lemma bind_Ret {E A B} (m : res E A) (k : A -> res E B) b :
  bind m k = Ret b -> exists a, m = Ret a /\ k a = Ret b.
Proof. destruct m as [a|e]; simpl; [eauto | discriminate]. Qed.

Lemma bind_Raise {E A B} (m : res E A) (k : A -> res E B) e :
  bind m k = Raise e ->
  m = Raise e \/ exists a, m = Ret a /\ k a = Raise e.
Proof. destruct m as [a|e']; simpl; [eauto | intros [= ->]; auto]. Qed.

Lemma lift_Ret {A} (m : pyres A) a : lift m = Ret a -> m = Ret a.
Proof. destruct m; simpl; congruence. Qed.

Tactic Notation "bind_inv" hyp(H) "as" ident(a) ident(Ha) :=
  apply bind_Ret in H; destruct H as (a & Ha & H).

(** ** The reference implementation meets the Pillow contract *)

Lemma thumbnail_size_fits w h bw bh :
  0 < w -> 0 < h -> 0 < bw -> 0 < bh ->
  fst (Raster.thumbnail_size w h bw bh) <= bw
  /\ snd (Raster.thumbnail_size w h bw bh) <= bh.
Proof.
  intros Hw Hh Hbw Hbh. unfold Raster.thumbnail_size.
  destruct (Z.geb_spec (bw * h) (bh * w)) as [Hge|Hlt]; simpl.
  - split; [|lia]. apply Z.max_lub; [|lia].
    apply Z.div_le_upper_bound; lia.
  - split; [lia|]. apply Z.max_lub; [|lia].
    apply Z.div_le_upper_bound; lia.
Qed.

Lemma thumbnail_size_aspect w h bw bh :
  0 < w -> 0 < h -> 0 < bw -> 0 < bh ->
  aspect_within_rounding (w, h) (Raster.thumbnail_size w h bw bh).
Proof.
  intros Hw Hh Hbw Hbh.
  unfold Raster.thumbnail_size, aspect_within_rounding, max_dim.
  destruct (Z.geb_spec (bw * h) (bh * w)) as [Hge|Hlt]; simpl.
  - pose proof (Z.div_mod (bh * w) h ltac:(lia)) as Hdm.
    pose proof (Z.mod_pos_bound (bh * w) h Hh) as Hm.
    assert (0 <= bh * w / h) by (apply Z.div_pos; nia).
    destruct (Z.max_spec (bh * w / h) 1) as [[? ->]|[? ->]]; nia.
  - pose proof (Z.div_mod (bw * h) w ltac:(lia)) as Hdm.
    pose proof (Z.mod_pos_bound (bw * h) w Hw) as Hm.
    assert (0 <= bw * h / w) by (apply Z.div_pos; nia).
    destruct (Z.max_spec (bw * h / w) 1) as [[? ->]|[? ->]]; nia.
Qed.

Lemma raster_spec : @PILSpec Raster.pil.
Proof.
  split; simpl.
  - intros img m img' [= <-]. reflexivity.
  - intros m s c img [= <-]. reflexivity.
  - intros bg src mask bg'. unfold Raster.paste_onto.
    destruct (_ && _); [intros [= <-]; reflexivity | discriminate].
  - intros img [bw bh] resample img'. unfold Raster.shrink.
    destruct (Raster.im_size img) as [w h] eqn:Hs.
    destruct (_ || _) eqn:Hbad; [discriminate|].
    apply orb_false_elim in Hbad as [Hbad Hbh].
    apply orb_false_elim in Hbad as [Hbad Hbw].
    apply orb_false_elim in Hbad as [Hw Hh].
    destruct (_ && _) eqn:Hfit; intros [= <-]; simpl.
    + rewrite Hs; simpl. lia.
    + apply thumbnail_size_fits; lia.
  - intros img [bw bh] resample img'. unfold Raster.shrink.
    destruct (Raster.im_size img) as [w h] eqn:Hs.
    destruct (_ || _) eqn:Hbad; [discriminate|].
    apply orb_false_elim in Hbad as [Hbad Hbh].
    apply orb_false_elim in Hbad as [Hbad Hbw].
    apply orb_false_elim in Hbad as [Hw Hh].
    destruct (_ && _) eqn:Hfit; intros [= <-]; simpl.
    + rewrite Hs. unfold aspect_within_rounding, max_dim; simpl. lia.
    + apply thumbnail_size_aspect; lia.
Qed.

(** ** Image normaliser *)

Section NormalizerFacts.
Context `{PILSpec}.

Lemma to_rgb_size img img' : to_rgb img = Ret img' -> size img' = size img.
Proof.
  unfold to_rgb. intros Hrgb.
  destruct (mode_in (mode img) ["RGBA"; "P"; "LA"]).
  - bind_inv Hrgb as a Ha.
    assert (size a = size img) as Hsz.
    { destruct (_ && _); [eapply convert_size; eauto | congruence]. }
    rewrite <- Hsz. clear Ha Hsz.
    destruct (mode_in (mode a) ["RGBA"; "LA"]).
    + bind_inv Hrgb as bg Hbg. apply Image_new_size in Hbg.
      destruct (String.eqb (mode a) "RGBA");
        bind_inv Hrgb as bs Hbs; bind_inv Hrgb as mask Hmask;
        apply paste_size in Hrgb; congruence.
    + eapply convert_size; eauto.
  - destruct (negb _); [eapply convert_size; eauto | congruence].
Qed.

Lemma resize_if_large_small img max_size :
  max_dim (size img) <= max_size -> resize_if_large img max_size = Ret img.
Proof.
  intros Hle. unfold resize_if_large.
  destruct (Z.gtb_spec (max_dim (size img)) max_size); [lia | reflexivity].
Qed.

Lemma resize_if_large_bound img max_size img' :
  max_size < max_dim (size img) ->
  resize_if_large img max_size = Ret img' ->
  max_dim (size img') <= max_size
  /\ aspect_within_rounding (size img) (size img').
Proof.
  intros Hgt. unfold resize_if_large.
  destruct (Z.gtb_spec (max_dim (size img)) max_size); [|lia].
  intros Hth. split.
  - apply thumbnail_fits in Hth. simpl in Hth. unfold max_dim. lia.
  - eapply thumbnail_aspect; eauto.
Qed.

End NormalizerFacts.

(** C5: when decoding or a later processing step raises, the normaliser
    returns the input bytes as they came. *)
Theorem optimize_falls_back `{PIL} (image_data : bytes) (max_size : Z) :
  normalization_raises image_data max_size ->
  optimize_image_for_upload image_data max_size = image_data.
Proof.
  unfold optimize_image_for_upload, optimize_body, normalized_image.
  intros [(e & He) | [(img & e & Ho & He) | [(img & img' & e & Ho & Hr & He)
                     | (img & e & Hn & He)]]].
  - rewrite He. reflexivity.
  - rewrite Ho; simpl. rewrite He. reflexivity.
  - rewrite Ho; simpl. rewrite Hr; simpl. rewrite He. reflexivity.
  - unfold normalized_image in Hn. rewrite Hn; simpl. rewrite He. reflexivity.
Qed.

Lemma optimize_falls_back_witness :
  @normalization_raises Raster.pil [] 1024
  /\ @optimize_image_for_upload Raster.pil [] 1024 = [].
Proof.
  assert (@normalization_raises Raster.pil [] 1024) as Hr.
  { left. exists Raster.unidentified. reflexivity. }
  split; [exact Hr | exact (@optimize_falls_back Raster.pil [] 1024 Hr)].
Defined.

(** C6: an image that decodes and exceeds the maximum in its larger
    dimension is encoded with its larger dimension within the maximum and
    its aspect ratio kept up to rounding; one within the maximum is encoded
    at its own size, without a resize. *)
Theorem resize_bounds `{PILSpec} (image_data : bytes) (max_size : Z)
    (img0 : Image) (out : bytes) :
  Image_open image_data = Ret img0 ->
  optimize_body image_data max_size = Ret out ->
  optimize_image_for_upload image_data max_size = out
  /\ exists img,
      normalized_image image_data max_size = Ret img
      /\ encode img = Ret out
      /\ (max_size < max_dim (size img0) ->
          max_dim (size img) <= max_size
          /\ aspect_within_rounding (size img0) (size img))
      /\ (max_dim (size img0) <= max_size ->
          to_rgb img0 = Ret img /\ size img = size img0).
Proof.
  intros Hopen Hbody. split.
  { unfold optimize_image_for_upload. rewrite Hbody. reflexivity. }
  unfold optimize_body in Hbody. bind_inv Hbody as img Ha.
  exists img. split; [exact Ha|]. split; [exact Hbody|].
  unfold normalized_image in Ha. rewrite Hopen in Ha. simpl in Ha.
  bind_inv Ha as flat Hrgb. pose proof (to_rgb_size _ _ Hrgb) as Hflat.
  split.
  - intros Hgt. rewrite <- Hflat in *.
    eapply resize_if_large_bound; eauto.
  - intros Hle. rewrite <- Hflat in Hle.
    rewrite (resize_if_large_small _ _ Hle) in Ha.
    injection Ha as <-. split; [exact Hrgb | exact Hflat].
Qed.

Lemma resize_bounds_witness :
  @Image_open Raster.pil (Raster.header 1 false 2000 1000)
  = Ret {| Raster.im_mode := "RGBA"; Raster.im_size := (2000, 1000);
           Raster.im_transparency := false |}
  /\ exists img,
      @normalized_image Raster.pil (Raster.header 1 false 2000 1000) 1024
      = Ret img
      /\ max_dim (Raster.im_size img) <= 1024.
Proof.
  split; [reflexivity|].
  destruct (@resize_bounds Raster.pil raster_spec
              (Raster.header 1 false 2000 1000) 1024
              {| Raster.im_mode := "RGBA"; Raster.im_size := (2000, 1000);
                 Raster.im_transparency := false |}
              (Raster.header 0 false 1024 512)
              eq_refl eq_refl) as (_ & img & Hn & _ & Hbig & _).
  exists img. split; [exact Hn|].
  apply Hbig. vm_compute. reflexivity.
Defined.

(** ** Remote API client *)

Lemma probe_keys_obj keys data :
  Tripo3DClient.probe_keys keys (JObj data)
  = Ret (first_present (map (fun k => dict_get k data) keys)).
Proof.
  induction keys as [|k keys IH]; simpl; [reflexivity|].
  unfold dict_has. destruct (dict_get k data) eqn:Hk; simpl.
  - reflexivity.
  - exact IH.
Qed.

Lemma extract_token_obj d :
  Tripo3DClient.extract_token (JObj d) = token_by_shape d.
Proof.
  unfold Tripo3DClient.extract_token, token_by_shape, token_not_found.
  cbn [py_in py_getitem lift bind]. unfold dict_has.
  destruct (dict_get "data" d) as [data|] eqn:Hdata;
    cbn [py_in py_getitem lift bind].
  - destruct data; cbn [is_dict is_str]; try reflexivity.
    rewrite probe_keys_obj. cbn [map lift bind].
    destruct (first_present _); reflexivity.
  - unfold dict_has.
    destruct (dict_get "token" d) eqn:Htok; simpl; [reflexivity|].
    destruct (dict_get "image_token" d) eqn:Hit; simpl; reflexivity.
Qed.

(** C1, as the code has it: for a 200 upload response whose body is a JSON
    object, the token is sought by the shape of the body. With a [data]
    member it is the first of data.image_token, data.token and
    data.file_token when [data] is an object, [data] itself when it is a
    string; the top-level token and image_token are looked at, in that
    order, only without a [data] member. When the search fails the error is
    HTTP 500 with the payload in its detail. *)
Theorem upload_token_by_shape `{PIL} (R : Remote) (self : Tripo3DClient.t)
    (image_data : bytes) (filename : string) (response : Response)
    (d : dict) :
  post_upload R (Tripo3DClient.api_key self) filename
    (optimize_image_for_upload image_data 1024) = Responded response ->
  status_code response = 200 ->
  json_body response = Some (JObj d) ->
  Tripo3DClient.upload_image R self image_data filename = token_by_shape d.
Proof.
  intros Hpost Hcode Hbody.
  unfold Tripo3DClient.upload_image. rewrite Hpost.
  unfold Tripo3DClient.upload_response, response_json.
  rewrite Hcode, Hbody. simpl. apply extract_token_obj.
Qed.

Lemma upload_token_by_shape_witness :
  @Tripo3DClient.upload_image Raster.pil
    (constant_remote (Responded (ok_response
       (JObj [("data", JObj [("token", JStr "t"); ("image_token", JStr "i")]);
              ("token", JStr "top")]))))
    demo_client (Raster.header 0 false 50 50) "cat.jpg"
  = Ret (JStr "i").
Proof.
  exact (@upload_token_by_shape Raster.pil
           (constant_remote (Responded (ok_response
              (JObj [("data", JObj [("token", JStr "t");
                                    ("image_token", JStr "i")]);
                     ("token", JStr "top")]))))
           demo_client (Raster.header 0 false 50 50) "cat.jpg" _ _
           eq_refl eq_refl eq_refl).
Defined.

(** C1 as stated fails: with an empty [data] object next to a top-level
    token, the first present place of the six is the top-level token, and
    the client raises the 500 instead of returning it. *)
Lemma upload_token_counterexample :
  token_as_specified token_beside_data = Ret (JStr "abc")
  /\ @Tripo3DClient.upload_image Raster.pil
       (constant_remote (Responded (ok_response token_beside_data)))
       demo_client (Raster.header 0 false 50 50) "cat.jpg"
     = Raise (HTTPException 500
                [Lit "Could not extract token from upload response: ";
                 FmtJson token_beside_data]).
Proof. split; reflexivity. Qed.

(** C3, as the code has it: the submit handler unsets a style of "none" and
    passes the remesh value on as it is, so that a remesh of "none" stays
    that string in the parameters object; it is [create_task] that leaves
    both out of the "extra" object it sends. *)
Theorem none_sentinels (mv : string) (st : option string) (tr : Z)
    (rm : string) :
  style (request_params_of mv (Some "none") tr rm) = None
  /\ remesh (request_params_of mv st tr rm) = Some rm
  /\ dict_get "style"
       (Tripo3DClient.extra_of (request_params_of mv (Some "none") tr rm))
     = None
  /\ dict_get "remesh"
       (Tripo3DClient.extra_of (request_params_of mv st tr "none"))
     = None.
Proof.
  split; [reflexivity|]. split; [reflexivity|]. split.
  - unfold Tripo3DClient.extra_of, request_params_of; cbn.
    destruct (negb (mv =? "")%string), (negb (tr =? 0)),
      (negb (rm =? "")%string);
      cbn; try destruct (negb (rm =? "none")%string); reflexivity.
  - unfold Tripo3DClient.extra_of, request_params_of; cbn.
    destruct (negb (mv =? "")%string), (negb (tr =? 0));
      destruct (truthy_ostr st && negb (ostr_eqb st "none")) eqn:Hst;
      cbn; rewrite ?Hst; try reflexivity;
      destruct st as [s|]; try discriminate; cbn; rewrite ?Hst; reflexivity.
Qed.

(** C3 as stated fails: a remesh of "none" is not unset in the parameters
    object that the submit handler constructs. *)
Lemma none_sentinels_counterexample :
  remesh (request_params_of "v2.0-20240919" None 1024 "none") = Some "none"
  /\ remesh (request_params_of "v2.0-20240919" None 1024 "none") <> None.
Proof. split; [reflexivity | discriminate]. Qed.

(** Where the reading by shape and the wording of the specification agree:
    on a body without [data], and on one without top-level tokens. *)
Lemma token_by_shape_as_specified d :
  dict_get "data" d = None
  \/ (dict_get "token" d = None /\ dict_get "image_token" d = None) ->
  token_by_shape d = token_as_specified (JObj d).
Proof.
  unfold token_by_shape, token_as_specified, token_locations.
  cbn [member]. intros [Hdata | [Htok Hit]].
  - rewrite Hdata. reflexivity.
  - rewrite Htok, Hit.
    destruct (dict_get "data" d) as [[| | | | |l|data]|]; reflexivity.
Qed.

Lemma TaskStatus_of_value v s :
  TaskStatus_of v = Ret s -> v = JStr (TaskStatus_value s).
Proof.
  destruct v; simpl; try discriminate.
  repeat match goal with
         | |- context [String.eqb ?a ?b] =>
             destruct (String.eqb_spec a b) as [->|_]
         end; intros [= <-]; reflexivity.
Qed.

Lemma TaskStatus_value_is_status_value s :
  is_status_value (JStr (TaskStatus_value s)).
Proof. unfold is_status_value. destruct s; simpl; auto. Qed.

Section StatusFacts.
Context `{Pydantic}.

Lemma snapshot_of_status tid data t :
  Tripo3DClient.snapshot_of tid data = Ret t ->
  task_id t = tid
  /\ member "status" data = Some (JStr (TaskStatus_value (status t))).
Proof.
  unfold Tripo3DClient.snapshot_of. intros Hs.
  bind_inv Hs as raw Hraw. bind_inv Hs as s Hstatus.
  apply TaskStatus_of_value in Hstatus. subst raw.
  destruct data; try discriminate.
  bind_inv Hs as i Hi. bind_inv Hs as o Ho.
  bind_inv Hs as p Hp. bind_inv Hs as c Hc.
  injection Hs as <-. simpl. split; [reflexivity|].
  simpl in Hraw. destruct (dict_get "status" d); congruence.
Qed.

Lemma status_response_Ret tid response t :
  Tripo3DClient.status_response tid response = Ret t ->
  task_id t = tid
  /\ data_status response = Some (JStr (TaskStatus_value (status t))).
Proof.
  unfold Tripo3DClient.status_response, data_status, response_json.
  destruct (negb _); [discriminate|].
  destruct (json_body response) as [result|]; [|discriminate].
  cbn [lift bind]. intros Hs.
  bind_inv Hs as has_data Hin. destruct has_data; [|discriminate].
  cbn [negb] in Hs. bind_inv Hs as data Hdata.
  apply lift_Ret in Hs, Hdata. apply snapshot_of_status in Hs as [Hid Hst].
  split; [exact Hid|].
  destruct result; try discriminate. simpl in *.
  destruct (dict_get "data" d); [|discriminate].
  injection Hdata as ->. exact Hst.
Qed.

(** Line 274: the 500 is raised whenever ["data" not in result] holds. *)
Lemma status_response_without_data tid response result :
  status_code response = 200 ->
  json_body response = Some result ->
  py_in "data" result = Ret false ->
  Tripo3DClient.status_response tid response
  = Raise (HTTPException 500
             [Lit "Invalid task status response format: ";
              FmtJson result]).
Proof.
  intros Hcode Hbody Hin.
  unfold Tripo3DClient.status_response, response_json.
  rewrite Hcode, Hbody. cbn [Z.eqb Pos.eqb negb lift bind].
  rewrite Hin. reflexivity.
Qed.

Lemma get_task_status_id (R : Remote) self tid t :
  Tripo3DClient.get_task_status R self tid = Ret t ->
  task_id t = tid.
Proof.
  unfold Tripo3DClient.get_task_status.
  destruct (get_task _ _ _); try discriminate.
  intros Hs. apply status_response_Ret in Hs. tauto.
Qed.

End StatusFacts.

(** C8, as the code has it: a 200 status response whose body is an object
    without a [data] member makes the client raise HTTP 500 with the payload
    in its detail; and whenever [data.status] is not one of queued, running,
    success and failed the client fails, a snapshot being returned only with
    the status that [data.status] names. A [data] member that is there
    without being an object, and a body that is null, a boolean or a number,
    are not met by the 500: the client raises a plain TypeError. *)
Theorem status_response_strict `{Pydantic} (R : Remote)
    (self : Tripo3DClient.t) (task_id : string) (response : Response) :
  get_task R (Tripo3DClient.api_key self) task_id = Responded response ->
  status_code response = 200 ->
  (forall d, json_body response = Some (JObj d) ->
             dict_get "data" d = None ->
             Tripo3DClient.get_task_status R self task_id
             = Raise (HTTPException 500
                        [Lit "Invalid task status response format: ";
                         FmtJson (JObj d)]))
  /\ ((forall v, data_status response = Some v -> ~ is_status_value v) ->
      exists e, Tripo3DClient.get_task_status R self task_id = Raise e)
  /\ (forall t, Tripo3DClient.get_task_status R self task_id = Ret t ->
                data_status response
                = Some (JStr (TaskStatus_value (status t))))
  /\ (forall d data, json_body response = Some (JObj d) ->
                     dict_get "data" d = Some data ->
                     is_dict data = false ->
                     Tripo3DClient.get_task_status R self task_id
                     = Raise (PyErr TypeError))
  /\ (forall j, json_body response = Some j ->
                scalar j = true ->
                Tripo3DClient.get_task_status R self task_id
                = Raise (PyErr TypeError)).
Proof.
  intros Hget Hcode. unfold Tripo3DClient.get_task_status. rewrite Hget.
  split; [|split; [|split; [|split]]].
  - intros d Hbody Hdata.
    apply status_response_without_data; [exact Hcode | exact Hbody |].
    cbn. unfold dict_has. rewrite Hdata. reflexivity.
  - intros Hbad.
    destruct (Tripo3DClient.status_response task_id response) as [t|e] eqn:Hs;
      [|eauto].
    apply status_response_Ret in Hs as [_ Hst].
    exfalso. eapply Hbad; [exact Hst|].
    apply TaskStatus_value_is_status_value.
  - intros t Hs. apply status_response_Ret in Hs. tauto.
  - intros d data Hbody Hdata Hnot.
    unfold Tripo3DClient.status_response, response_json.
    rewrite Hcode, Hbody. cbn [Z.eqb Pos.eqb negb lift bind py_in py_getitem].
    unfold dict_has. rewrite Hdata. cbn [negb lift bind].
    destruct data; try discriminate; reflexivity.
  - intros j Hbody Hscalar.
    unfold Tripo3DClient.status_response, response_json.
    rewrite Hcode, Hbody. cbn [Z.eqb Pos.eqb negb lift bind].
    destruct j; try discriminate; reflexivity.
Qed.

Lemma status_response_strict_witness :
  @Tripo3DClient.get_task_status Raster.pydantic
    (constant_remote (Responded (ok_response (JObj [("code", JInt 0)]))))
    demo_client "task-1"
  = Raise (HTTPException 500
             [Lit "Invalid task status response format: ";
              FmtJson (JObj [("code", JInt 0)])]).
Proof.
  exact (proj1 (@status_response_strict Raster.pydantic
                  (constant_remote
                     (Responded (ok_response (JObj [("code", JInt 0)]))))
                  demo_client "task-1" _ eq_refl eq_refl)
           _ eq_refl eq_refl).
Defined.

(** C8 as stated fails: a 200 body whose [data] is null lacks a data object,
    and the client raises a TypeError, not the 500 with the payload. *)
Lemma status_response_strict_counterexample :
  member "data" null_data_body = Some JNull
  /\ @Tripo3DClient.get_task_status Raster.pydantic
       (constant_remote (Responded (ok_response null_data_body)))
       demo_client "task-1"
     = Raise (PyErr TypeError).
Proof. split; reflexivity. Qed.

(** ** Request handlers *)

Lemma lift_Raise {A} (m : pyres A) e :
  lift m = Raise e -> exists pe, e = PyErr pe.
Proof. destruct m; simpl; [discriminate | intros [= <-]; eauto]. Qed.

Lemma guard_Raise {A} prefix (r : hres A) e :
  guard prefix r = Raise e ->
  r = Raise e \/ exists pe, e = HTTPException 500 (prefix ++ [FmtErr pe]).
Proof.
  destruct r as [a|[c d|pe]]; simpl; intros [= <-]; eauto.
Qed.

(** Taking apart a computation that raised, down to the [raise] reached. *)
Ltac raised :=
  repeat match goal with
    | H : Ret _ = Raise _ |- _ => discriminate H
    | H : Raise _ = Raise _ |- _ => injection H as <-
    | H : lift _ = Raise _ |- _ =>
        apply lift_Raise in H; destruct H as [? ->]
    | H : bind _ _ = Raise _ |- _ =>
        apply bind_Raise in H; destruct H as [H | (? & _ & H)]
    | H : (if ?b then _ else _) = Raise _ |- _ => destruct b
    | H : match ?x with _ => _ end = Raise _ |- _ => destruct x
    end.

Section HandlerFacts.
Context `{PIL} `{Pydantic}.

Lemma upload_image_not_too_large R self image_data name e :
  Tripo3DClient.upload_image R self image_data name = Raise e ->
  e <> too_large.
Proof.
  unfold Tripo3DClient.upload_image, Tripo3DClient.upload_response,
    Tripo3DClient.extract_token, too_large.
  intros Hr. raised; discriminate.
Qed.

Lemma create_task_not_too_large R self token params e :
  Tripo3DClient.create_task R self token params = Raise e ->
  e <> too_large.
Proof.
  unfold Tripo3DClient.create_task, Tripo3DClient.extract_task_id,
    too_large.
  intros Hr. raised; discriminate.
Qed.

Lemma convert_body_not_too_large R self now file mv st tr rm w e :
  convert_body R self now file mv st tr rm w = Raise e -> e <> too_large.
Proof.
  unfold convert_body. intros Hr.
  destruct (_ =? _)%nat; [injection Hr as <-; discriminate|].
  apply bind_Raise in Hr as [Hr | (token & _ & Hr)];
    [eapply upload_image_not_too_large; eauto|].
  apply bind_Raise in Hr as [Hr | (id & _ & Hr)];
    [eapply create_task_not_too_large; eauto|].
  raised; discriminate.
Qed.

End HandlerFacts.

(** C9: an upload that declares no size, or a size of zero, skips the size
    check: whatever the length of its body, the submit handler does not
    answer with the 400 of the 10 MB limit, and treats the upload as it
    would with any declared size within the limit. *)
Theorem undeclared_size_not_rejected `{PIL}
    (tripo3d_client : option Tripo3DClient.t) (R : Remote) (now : Z)
    (file : UploadFile) (mv : string) (st : option string) (tr : Z)
    (rm : string) (w : World) :
  file_size file = None \/ file_size file = Some 0 ->
  fst (convert_image_to_3d tripo3d_client R now file mv st tr rm w)
  <> Raise too_large
  /\ forall declared,
       declared <= 10 * 1024 * 1024 ->
       convert_image_to_3d tripo3d_client R now
         (declaring (Some declared) file) mv st tr rm w
       = convert_image_to_3d tripo3d_client R now file mv st tr rm w.
Proof.
  intros Hsize.
  assert (truthy_oint (file_size file) = false) as Hskip
    by (destruct Hsize as [-> | ->]; reflexivity).
  unfold convert_image_to_3d. split.
  - destruct tripo3d_client as [client|]; [|simpl; discriminate].
    destruct (_ || _); [simpl; discriminate|].
    rewrite Hskip. cbn [andb].
    destruct (guard _ _) as [[body w']|e] eqn:Hg; simpl; [discriminate|].
    intros [= ->].
    apply guard_Raise in Hg as [Hg | (pe & Hpe)]; [|discriminate].
    eapply convert_body_not_too_large; eauto.
  - intros declared Hle.
    destruct tripo3d_client as [client|]; [|reflexivity].
    cbn [declaring content_type file_size]. rewrite Hskip. cbn [andb].
    destruct (_ || _); [reflexivity|].
    change (default 0 (Some declared)) with declared.
    destruct (Z.gtb_spec declared (10 * 1024 * 1024)) as [Hgt|_]; [lia|].
    rewrite andb_false_r. reflexivity.
Qed.

Lemma undeclared_size_not_rejected_witness :
  file_size demo_upload = None
  /\ fst (@convert_image_to_3d Raster.pil (Some demo_client)
            (demo_remote JNull) 1700000000 demo_upload "v2.0-20240919" None
            1024 "none" initial_world)
     <> Raise too_large.
Proof.
  split; [reflexivity|].
  exact (proj1 (@undeclared_size_not_rejected Raster.pil (Some demo_client)
                  (demo_remote JNull) 1700000000 demo_upload "v2.0-20240919"
                  None 1024 "none" initial_world (or_introl eq_refl))).
Defined.

Lemma TaskStatus_eqb_eq a b : TaskStatus_eqb a b = true <-> a = b.
Proof. destruct a, b; simpl; split; congruence. Qed.

(** C7, as the code has it: once the status is fetched, the download
    handler answers 400 with the current status when it is not success; 404
    when the output is None, empty or without a "model" entry; 400 with the
    keys of the urls mapping when the format asked for is not among them.
    A "model" entry that is there without being an object with "urls" is
    not met by the 404: the lookup of line 468 raises, and the handler
    answers 500 with that error as detail. *)
Theorem download_rejections `{Pydantic} (R : Remote)
    (client : Tripo3DClient.t) (tid format : string) (w : World)
    (t : TaskResponse) :
  Tripo3DClient.get_task_status R client tid = Ret t ->
  (status t <> SUCCESS ->
   download_3d_model (Some client) R tid format w
   = (Raise (HTTPException 400
               [Lit "Task not completed. Current status: ";
                FmtStatus (status t)]), w))
  /\ (status t = SUCCESS -> missing_model_info t ->
      download_3d_model (Some client) R tid format w
      = (Raise (HTTPException 404 [Lit "3D model not found in task output"]),
         w))
  /\ (status t = SUCCESS ->
      forall urls, model_urls t = Some (JObj urls) ->
                   dict_get format urls = None ->
      download_3d_model (Some client) R tid format w
      = (Raise (HTTPException 400
                  [Lit "Format '"; FmtStr format;
                   Lit "' not available. Available formats: ";
                   FmtKeys (dict_keys urls)]), w))
  /\ (status t = SUCCESS ->
      forall out model, output t = Some out ->
                        dict_get "model" out = Some model ->
      (forall m, model = JObj m -> dict_get "urls" m = None ->
         download_3d_model (Some client) R tid format w
         = (Raise (HTTPException 500 [FmtErr (KeyError "urls")]), w))
      /\ (is_dict model = false ->
          download_3d_model (Some client) R tid format w
          = (Raise (HTTPException 500 [FmtErr TypeError]), w))).
Proof.
  intros Hfetch. unfold download_3d_model. rewrite Hfetch. cbn [bind].
  unfold download_url_of. split; [|split; [|split]].
  - intros Hne.
    destruct (TaskStatus_eqb (status t) SUCCESS) eqn:Heq.
    + apply TaskStatus_eqb_eq in Heq. contradiction.
    + reflexivity.
  - intros -> Hmiss. cbn [TaskStatus_eqb negb].
    unfold missing_model_info in Hmiss.
    destruct (output t) as [[|kv out]|]; [reflexivity| |reflexivity].
    unfold dict_has. rewrite Hmiss. reflexivity.
  - intros -> urls Hurls Hfmt. cbn [TaskStatus_eqb negb].
    unfold model_urls in Hurls.
    destruct (output t) as [out|]; [|discriminate]. cbn in Hurls.
    destruct (dict_get "model" out) as [model|] eqn:Hmodel; [|discriminate].
    cbn in Hurls.
    destruct out as [|kv out]; [discriminate|].
    unfold dict_has. rewrite Hmodel. cbn [negb py_getitem lift bind].
    rewrite Hmodel. cbn [lift bind].
    destruct model; try discriminate. cbn in Hurls.
    cbn [py_getitem]. rewrite Hurls. cbn [lift bind py_in].
    unfold dict_has. rewrite Hfmt. reflexivity.
  - intros -> out model -> Hmodel. cbn [TaskStatus_eqb negb].
    destruct out as [|kv out]; [discriminate|].
    unfold dict_has. rewrite Hmodel. cbn [negb py_getitem lift bind].
    rewrite Hmodel. cbn [lift bind]. split.
    + intros m -> Hurls. cbn [py_getitem]. rewrite Hurls. reflexivity.
    + intros Hnot. destruct model; try discriminate; reflexivity.
Qed.

Lemma download_rejections_witness :
  @download_3d_model Raster.pydantic (Some demo_client)
    (demo_remote (status_body "success" glb_output)) "task-1" "obj"
    initial_world
  = (Raise (HTTPException 400
              [Lit "Format '"; FmtStr "obj";
               Lit "' not available. Available formats: ";
               FmtKeys ["glb"]]), initial_world).
Proof.
  exact (proj1 (proj2 (proj2 (@download_rejections Raster.pydantic
                         (demo_remote (status_body "success" glb_output))
                         demo_client "task-1" "obj" initial_world _ eq_refl)))
           eq_refl _ eq_refl eq_refl).
Defined.

(** C7 as stated fails: a successful task whose output has a "model" entry
    without "urls" lacks the model info, and the download answers 500, not
    404. *)
Lemma download_rejections_counterexample :
  exists t,
    @Tripo3DClient.get_task_status Raster.pydantic
      (demo_remote (status_body "success" urlless_output)) demo_client
      "task-1" = Ret t
    /\ status t = SUCCESS
    /\ model_urls t = None
    /\ @download_3d_model Raster.pydantic (Some demo_client)
         (demo_remote (status_body "success" urlless_output)) "task-1" "glb"
         initial_world
       = (Raise (HTTPException 500 [FmtErr (KeyError "urls")]),
          initial_world).
Proof. eexists. repeat split. Qed.

(** ** Background poller *)

Lemma queries_app tr1 tr2 :
  queries (tr1 ++ tr2) = (queries tr1 + queries tr2)%nat.
Proof.
  induction tr1 as [|[r|s|] tr1 IH]; simpl; [reflexivity| |exact IH|exact IH].
  rewrite IH. reflexivity.
Qed.

Lemma observations_app tr1 tr2 :
  observations (tr1 ++ tr2) = observations tr1 ++ observations tr2.
Proof.
  induction tr1 as [|[r|s|] tr1 IH]; simpl; [reflexivity| |exact IH|exact IH].
  rewrite IH. reflexivity.
Qed.

Lemma last_snapshot_snoc obs r :
  last_snapshot (obs ++ [r])
  = match r with Ret t => Some t | Raise _ => last_snapshot obs end.
Proof. unfold last_snapshot. rewrite fold_left_app. reflexivity. Qed.

Lemma tracked_snoc_Ret storage0 tid obs t :
  tracked storage0 tid (obs ++ [Ret t])
  = <[tid := t]> (tracked storage0 tid obs).
Proof.
  unfold tracked. rewrite last_snapshot_snoc.
  destruct (last_snapshot obs); [|reflexivity].
  rewrite insert_insert_eq. reflexivity.
Qed.

Lemma tracked_snoc_Raise storage0 tid obs e :
  tracked storage0 tid (obs ++ [Raise e]) = tracked storage0 tid obs.
Proof. unfold tracked. rewrite last_snapshot_snoc. reflexivity. Qed.

Lemma last_snapshot_In obs t : last_snapshot obs = Some t -> In (Ret t) obs.
Proof.
  induction obs as [|r obs IH] using rev_ind; [discriminate|].
  rewrite last_snapshot_snoc, in_app_iff. destruct r as [t'|e].
  - intros [= ->]. right. left. reflexivity.
  - intros Hl. left. auto.
Qed.

Lemma none_terminal_snoc obs r :
  none_terminal obs ->
  (forall t, r = Ret t -> terminal (status t) = false) ->
  none_terminal (obs ++ [r]).
Proof.
  intros Hobs Hr t Hin. apply in_app_iff in Hin as [Hin|[->|[]]]; auto.
Qed.

Section PollerFacts.
Context `{Pydantic}.
Variables (client : Tripo3DClient.t) (remote : nat -> Remote)
  (tid : string) (storage0 : gmap string TaskResponse).

Abbreviation polling := (polling client remote tid storage0).
Abbreviation stopped := (stopped client remote tid storage0).
Abbreviation answer := (answer client remote tid).

Lemma polling_initial :
  polling {| attempt := 0; storage := storage0; trace := [] |}.
Proof.
  split; simpl; try reflexivity.
  - unfold max_attempts. lia.
  - intros t [].
Qed.

Lemma polling_earlier st k t' :
  polling st -> (k < queries (trace st))%nat ->
  answer k = Ret t' -> terminal (status t') = false.
Proof.
  intros [_ _ Hans _ Hlive] Hk Hk'. apply Hlive.
  rewrite Hans, <- Hk'. apply in_map, in_seq. lia.
Qed.

(** The answers seen once the next one is added to the trace. *)
Lemma answers_next tr rest :
  observations tr = map answer (seq 0 (queries tr)) ->
  observations rest = [answer (queries tr)] ->
  queries rest = 1%nat ->
  observations (tr ++ rest)
  = map answer (seq 0 (queries (tr ++ rest))).
Proof.
  intros Htr Hrest Hq.
  rewrite observations_app, queries_app, Hq, Nat.add_1_r, seq_S, map_app.
  rewrite Htr, Hrest. reflexivity.
Qed.

(** A turn that does not end the loop keeps [polling]. *)
Lemma polling_continue st r storage' :
  polling st ->
  attempt st < max_attempts ->
  answer (queries (trace st)) = r ->
  (forall t, r = Ret t -> terminal (status t) = false) ->
  storage' = tracked storage0 tid (observations (trace st) ++ [r]) ->
  polling {| attempt := attempt st + 1; storage := storage';
             trace := trace st ++ [Polled r; Slept 5] |}.
Proof.
  intros [Hatt Hbud Hans Hsto Hlive] Hlt Hr Hterm ->.
  split; cbn [attempt storage trace].
  - rewrite queries_app. cbn. lia.
  - lia.
  - apply answers_next; [exact Hans | cbn; congruence | reflexivity].
  - rewrite observations_app. reflexivity.
  - rewrite observations_app. apply none_terminal_snoc; assumption.
Qed.

Lemma monitor_loop_stops fuel : forall st,
  polling st ->
  (Z.to_nat (max_attempts - attempt st) < fuel)%nat ->
  exists st', monitor_loop (Some client) remote tid fuel st = Some st'
              /\ stopped st'.
Proof.
  induction fuel as [|fuel IH]; intros st Hp Hfuel; [lia|].
  cbn [monitor_loop].
  destruct (Z.ltb_spec (attempt st) max_attempts) as [Hlt|Hge].
  - unfold monitor_iteration.
    fold (answer (queries (trace st))).
    destruct (answer (queries (trace st))) as [t|e] eqn:Hans.
    + destruct (terminal (status t)) eqn:Hterm.
      * (* the first terminal status: break *)
        eexists. split; [reflexivity|].
        destruct Hp as [Hatt Hbud Hobs Hsto Hlive].
        split; cbn [attempt storage trace].
        -- apply answers_next; [exact Hobs | cbn; congruence | reflexivity].
        -- rewrite observations_app. cbn.
           rewrite tracked_snoc_Ret, <- Hsto. reflexivity.
        -- right. exists t.
           rewrite queries_app, last_snoc, Hatt, Nat2Z.id. cbn.
           repeat split; try assumption; try lia.
           intros k t' Hk. apply (polling_earlier st); [|exact Hk].
           split; assumption.
      * (* a snapshot that is not terminal: store, sleep, go on *)
        apply IH; [|cbn [attempt]; lia].
        apply polling_continue; try assumption.
        -- intros t0 [= <-]. exact Hterm.
        -- rewrite tracked_snoc_Ret, <- (polling_storage _ _ _ _ _ Hp).
           reflexivity.
    + (* the query raised: sleep, go on *)
      apply IH; [|cbn [attempt]; lia].
      apply polling_continue; try assumption.
      * discriminate.
      * rewrite tracked_snoc_Raise. apply (polling_storage _ _ _ _ _ Hp).
  - (* the budget is spent *)
    destruct Hp as [Hatt Hbud Hobs Hsto Hlive].
    exists st. split; [reflexivity|].
    split; [exact Hobs | exact Hsto |].
    left. repeat split; [lia | | exact Hlive].
    unfold max_attempts in *. lia.
Qed.

End PollerFacts.

Lemma last_observation tr r :
  last tr = Some (Polled r) ->
  exists obs, observations tr = obs ++ [r].
Proof.
  intros Hl. apply last_Some in Hl as [tr' ->].
  exists (observations tr'). rewrite observations_app. reflexivity.
Qed.

Lemma tracked_lookup_last storage0 tid obs t :
  tracked storage0 tid (obs ++ [Ret t]) !! tid = Some t.
Proof. rewrite tracked_snoc_Ret. apply lookup_insert_eq. Qed.

Lemma warn_if_exhausted_running st :
  attempt st < max_attempts -> warn_if_exhausted st = st.
Proof.
  intros Hlt. unfold warn_if_exhausted.
  destruct (Z.geb_spec (attempt st) max_attempts); [lia | reflexivity].
Qed.

Lemma warn_if_exhausted_spent st :
  attempt st = max_attempts ->
  warn_if_exhausted st
  = {| attempt := attempt st; storage := storage st;
       trace := trace st ++ [Warned_timeout] |}.
Proof.
  intros Heq. unfold warn_if_exhausted.
  destruct (Z.geb_spec (attempt st) max_attempts); [reflexivity | lia].
Qed.

(** C2: when the answer to a query is the first to carry a terminal status,
    the poller stops there: it has made that query and the ones before it
    and no other, the observation is the last thing it does, and the task
    map holds the terminal snapshot. *)
Theorem poller_stops_at_terminal `{Pydantic} (client : Tripo3DClient.t)
    (remote : nat -> Remote) (tid : string) (fuel : nat)
    (storage0 : gmap string TaskResponse) (n : nat) (t : TaskResponse) :
  (120 < fuel)%nat ->
  (n < 120)%nat ->
  (forall k t', (k < n)%nat -> answer client remote tid k = Ret t' ->
                terminal (status t') = false) ->
  answer client remote tid n = Ret t ->
  terminal (status t) = true ->
  exists st,
    monitor_task_progress (Some client) remote tid fuel storage0 = Some st
    /\ queries (trace st) = S n
    /\ last (trace st) = Some (Polled (Ret t))
    /\ storage st !! tid = Some t.
Proof.
  intros Hfuel Hn Hbefore Hans Hterm.
  destruct (monitor_loop_stops client remote tid storage0 fuel _
              (polling_initial client remote tid storage0))
    as (st & Hloop & Hst).
  { unfold max_attempts. cbn [attempt]. lia. }
  unfold monitor_task_progress. rewrite Hloop.
  cbn [fmap option_fmap option_map].
  destruct (stopped_how _ _ _ _ _ Hst)
    as [(_ & Hq & Hnone)
       | (t0 & Hlt & Hq & Hlast & Hterm0 & Hans0 & Hbefore0)].
  - exfalso. assert (terminal (status t) = false) as Hf; [|congruence].
    apply Hnone. rewrite (stopped_answers _ _ _ _ _ Hst), Hq, <- Hans.
    apply in_map, in_seq. lia.
  - rewrite (warn_if_exhausted_running _ Hlt).
    assert (Z.to_nat (attempt st) = n) as Hm.
    { destruct (Nat.lt_trichotomy (Z.to_nat (attempt st)) n) as [Hl|[He|Hg]].
      - rewrite (Hbefore _ _ Hl Hans0) in Hterm0. discriminate.
      - exact He.
      - rewrite (Hbefore0 _ _ Hg Hans) in Hterm. discriminate. }
    rewrite Hm in *. assert (t0 = t) as -> by congruence.
    exists st. repeat split; try assumption.
    destruct (last_observation _ _ Hlast) as (obs & Hobs).
    rewrite (stopped_storage _ _ _ _ _ Hst), Hobs.
    apply tracked_lookup_last.
Qed.

Lemma poller_stops_at_terminal_witness :
  exists st,
    @monitor_task_progress Raster.pydantic (Some demo_client)
      progressing_remote "task-1" 121 ∅ = Some st
    /\ queries (trace st) = 3%nat
    /\ last (trace st) = Some (Polled (Ret success_snapshot))
    /\ storage st !! "task-1" = Some success_snapshot.
Proof.
  apply (@poller_stops_at_terminal Raster.pydantic demo_client
           progressing_remote "task-1" 121 ∅ 2 success_snapshot).
  - lia.
  - lia.
  - intros [|[|k]] t' Hk Hans; [| |lia];
      vm_compute in Hans; injection Hans as <-; reflexivity.
  - reflexivity.
  - reflexivity.
Defined.

(** C4: whatever the remote service answers, errors included, the poller
    makes at most 120 status queries and stops; the task map then holds the
    last snapshot it observed, and when none of them was terminal it has
    made all 120 queries, has logged the timeout, and has put no terminal
    status into the task record. *)
Theorem poller_bounded `{Pydantic} (tripo3d_client : option Tripo3DClient.t)
    (remote : nat -> Remote) (tid : string) (fuel : nat)
    (storage0 : gmap string TaskResponse) :
  (120 < fuel)%nat ->
  exists st,
    monitor_task_progress tripo3d_client remote tid fuel storage0 = Some st
    /\ (queries (trace st) <= 120)%nat
    /\ (forall client, tripo3d_client = Some client ->
          observations (trace st)
          = map (answer client remote tid) (seq 0 (queries (trace st))))
    /\ storage st = tracked storage0 tid (observations (trace st))
    /\ (none_terminal (observations (trace st)) ->
        (forall client, tripo3d_client = Some client ->
           queries (trace st) = 120%nat
           /\ last (trace st) = Some Warned_timeout)
        /\ (forall t, storage st !! tid = Some t ->
                      terminal (status t) = true ->
                      storage0 !! tid = Some t)).
Proof.
  intros Hfuel.
  assert (forall st : PollState,
             storage st = tracked storage0 tid (observations (trace st)) ->
             none_terminal (observations (trace st)) ->
             forall t, storage st !! tid = Some t ->
                       terminal (status t) = true ->
                       storage0 !! tid = Some t) as Hrecord.
  { intros st Hsto Hnone t Hlook Hterm. rewrite Hsto in Hlook.
    unfold tracked in Hlook.
    destruct (last_snapshot (observations (trace st))) as [t'|] eqn:Hl;
      [|exact Hlook].
    rewrite lookup_insert_eq in Hlook. injection Hlook as ->.
    apply last_snapshot_In, Hnone in Hl. congruence. }
  destruct tripo3d_client as [client|].
  - destruct (monitor_loop_stops client remote tid storage0 fuel _
                (polling_initial client remote tid storage0))
      as (st & Hloop & Hst).
    { unfold max_attempts. cbn [attempt]. lia. }
    unfold monitor_task_progress. rewrite Hloop.
    cbn [fmap option_fmap option_map].
    destruct (stopped_how _ _ _ _ _ Hst)
      as [(Hatt & Hq & Hnone)
         | (t0 & Hlt & Hq & Hlast & Hterm0 & Hans0 & Hbefore0)].
    + rewrite (warn_if_exhausted_spent _ Hatt).
      eexists. split; [reflexivity|]. cbn [trace storage].
      rewrite queries_app, observations_app, app_nil_r. cbn [queries].
      rewrite Nat.add_0_r.
      split; [lia|].
      split; [intros c [= <-]; apply (stopped_answers _ _ _ _ _ Hst)|].
      split; [apply (stopped_storage _ _ _ _ _ Hst)|].
      intros _. split.
      * intros c _. split; [exact Hq | apply last_snoc].
      * apply Hrecord; [apply (stopped_storage _ _ _ _ _ Hst) | exact Hnone].
    + rewrite (warn_if_exhausted_running _ Hlt).
      exists st. split; [reflexivity|].
      split; [unfold max_attempts in Hlt; lia|].
      split; [intros c [= <-]; apply (stopped_answers _ _ _ _ _ Hst)|].
      split; [apply (stopped_storage _ _ _ _ _ Hst)|].
      intros Hnone. exfalso.
      destruct (last_observation _ _ Hlast) as (obs & Hobs).
      assert (terminal (status t0) = false) as Hf; [|congruence].
      apply Hnone. rewrite Hobs. apply in_app_iff. right. left. reflexivity.
  - destruct fuel as [|fuel]; [lia|].
    eexists. split; [reflexivity|]. cbn.
    split; [lia|]. split; [discriminate|]. split; [reflexivity|].
    intros _. split; [discriminate | auto].
Qed.

Lemma poller_bounded_witness :
  exists st,
    @monitor_task_progress Raster.pydantic (Some demo_client)
      (fun _ => demo_remote (status_body "running" JNull)) "task-1" 121 ∅
    = Some st
    /\ (queries (trace st) <= 120)%nat.
Proof.
  destruct (@poller_bounded Raster.pydantic (Some demo_client)
              (fun _ => demo_remote (status_body "running" JNull))
              "task-1" 121 ∅ ltac:(lia)) as (st & Hrun & Hq & _).
  exists st. split; [exact Hrun | exact Hq].
Defined.

(** ** Task tracker *)

Lemma keyed_insert m k t :
  keyed_by_own_id m -> task_id t = k -> keyed_by_own_id (<[k := t]> m).
Proof. intros Hm Hk. apply map_Forall_insert_2; assumption. Qed.

Section TrackerFacts.
Context `{PIL} `{Pydantic}.
Variable tripo3d_client : option Tripo3DClient.t.

Lemma convert_keyed R now file mv st tr rm w :
  keyed_by_own_id (task_storage w) ->
  keyed_by_own_id
    (task_storage
       (snd (convert_image_to_3d tripo3d_client R now file mv st tr rm w))).
Proof.
  intros Hw. unfold convert_image_to_3d.
  destruct tripo3d_client as [client|]; [|exact Hw].
  destruct (_ || _); [exact Hw|]. destruct (_ && _); [exact Hw|].
  destruct (guard _ _) as [[body w']|e] eqn:Hg; [|exact Hw].
  cbn [snd].
  assert (convert_body R client now file mv st tr rm w = Ret (body, w'))
    as Hbody.
  { destruct (convert_body R client now file mv st tr rm w) as [?|[]];
      simpl in Hg; congruence. }
  unfold convert_body in Hbody.
  destruct (_ =? _)%nat; [discriminate|].
  bind_inv Hbody as token Htoken. bind_inv Hbody as raw Hraw.
  bind_inv Hbody as id Hid. injection Hbody as _ <-.
  cbn [task_storage]. apply keyed_insert; [exact Hw | reflexivity].
Qed.

Lemma status_keyed R tid w :
  keyed_by_own_id (task_storage w) ->
  keyed_by_own_id (task_storage (snd (get_task_status tripo3d_client R tid w))).
Proof.
  intros Hw. unfold get_task_status.
  destruct tripo3d_client as [client|]; [|exact Hw].
  destruct (Tripo3DClient.get_task_status R client tid) as [t|[c d|e]] eqn:Hs;
    cbn; try exact Hw.
  apply keyed_insert; [exact Hw|]. eapply get_task_status_id; eauto.
Qed.

Lemma download_keyed R tid format w :
  task_storage (snd (download_3d_model tripo3d_client R tid format w))
  = task_storage w.
Proof.
  unfold download_3d_model.
  destruct tripo3d_client as [client|]; [|reflexivity].
  destruct (guard _ _); [|reflexivity].
  destruct (Tripo3DClient.download_file _ _ _ _ _) as [[p|e] files'];
    reflexivity.
Qed.

Lemma iteration_keyed R tid st :
  keyed_by_own_id (storage st) ->
  keyed_by_own_id (storage (snd (monitor_iteration tripo3d_client R tid st))).
Proof.
  intros Hst. unfold monitor_iteration.
  destruct tripo3d_client as [client|]; [|exact Hst].
  destruct (Tripo3DClient.get_task_status R client tid) as [t|e] eqn:Hs.
  - destruct (terminal (status t)); cbn;
      (apply keyed_insert; [exact Hst | eapply get_task_status_id; eauto]).
  - exact Hst.
Qed.

Lemma monitor_loop_keyed remote tid fuel : forall st st',
  keyed_by_own_id (storage st) ->
  monitor_loop tripo3d_client remote tid fuel st = Some st' ->
  keyed_by_own_id (storage st').
Proof.
  induction fuel as [|fuel IH]; intros st st' Hst; [discriminate|].
  cbn [monitor_loop]. destruct (_ <? _); [|intros [= <-]; exact Hst].
  pose proof (iteration_keyed (remote (queries (trace st))) tid st Hst)
    as Hit.
  destruct (monitor_iteration _ _ _ _) as [[] st1]; cbn [snd] in Hit.
  - intros [= <-]. exact Hit.
  - apply IH. exact Hit.
Qed.

Lemma monitor_keyed remote tid fuel m st :
  keyed_by_own_id m ->
  monitor_task_progress tripo3d_client remote tid fuel m = Some st ->
  keyed_by_own_id (storage st).
Proof.
  intros Hm. unfold monitor_task_progress.
  destruct (monitor_loop _ _ _ _ _) as [st1|] eqn:Hloop; [|discriminate].
  intros [= <-]. apply monitor_loop_keyed in Hloop; [|exact Hm].
  unfold warn_if_exhausted. destruct (_ >=? _); exact Hloop.
Qed.

Lemma run_op_keyed o w :
  keyed_by_own_id (task_storage w) ->
  keyed_by_own_id (task_storage (run_op tripo3d_client o w)).
Proof.
  intros Hw.
  destruct o as [R now file mv st tr rm | R tid | R tid format
                | R tid att | remote tid fuel]; cbn [run_op].
  - apply convert_keyed, Hw.
  - apply status_keyed, Hw.
  - rewrite download_keyed. exact Hw.
  - apply (iteration_keyed R tid
             {| attempt := att; storage := task_storage w; trace := [] |}),
      Hw.
  - destruct (monitor_task_progress _ _ _ _ _) as [st|] eqn:Hrun;
      [|exact Hw].
    eapply monitor_keyed; eauto.
Qed.

End TrackerFacts.

(** C10: after any sequence of submissions, status queries, downloads and
    poller turns or runs, every snapshot in the task map carries the id it
    is stored under. *)
Theorem storage_keyed_by_task_id `{PIL} `{Pydantic}
    (tripo3d_client : option Tripo3DClient.t) (ops : list op) :
  keyed_by_own_id (task_storage (run_ops tripo3d_client ops initial_world)).
Proof.
  unfold run_ops.
  assert (keyed_by_own_id (task_storage initial_world)) as Hinit.
  { apply map_Forall_empty. }
  revert Hinit. generalize initial_world.
  induction ops as [|o ops IH]; intros w Hw; [exact Hw|].
  cbn [fold_left]. apply IH, run_op_keyed, Hw.
Qed.

(** ** The end-to-end scenario of the specification, run on the model *)

Example submit_returns_queued :
  let '(r, w) :=
    @convert_image_to_3d Raster.pil (Some demo_client) (demo_remote JNull)
      1700000000 demo_upload "v2.0-20240919" None 1024 "none" initial_world in
  r = Ret (JObj [("task_id", JStr "task-1"); ("status", JStr "queued");
                 ("message",
                  JStr "Image uploaded and conversion task started")])
  /\ background_tasks w = ["task-1"]
  /\ task_storage w !! "task-1"
     = Some {| task_id := "task-1"; status := QUEUED; input := None;
               output := None; progress := None;
               created_time := Some 1700000000 |}.
Proof. vm_compute. repeat split. Qed.

Example download_glb :
  let '(r, w) :=
    @download_3d_model Raster.pydantic (Some demo_client)
      (demo_remote (status_body "success" glb_output)) "task-1" "glb"
      initial_world in
  r = Ret {| path := "downloads/task-1.glb";
             media_type := "application/octet-stream";
             download_name := "task-1.glb" |}
  /\ files w !! "downloads/task-1.glb"
     = Some [Byte.x67; Byte.x6c; Byte.x54; Byte.x46].
Proof. vm_compute. repeat split. Qed.

Example download_before_success :
  fst (@download_3d_model Raster.pydantic (Some demo_client)
         (demo_remote (status_body "running" JNull)) "task-1" "glb"
         initial_world)
  = Raise (HTTPException 400
             [Lit "Task not completed. Current status: ";
              FmtStatus RUNNING]).
Proof. reflexivity. Qed.

Example unknown_status_fails :
  @Tripo3DClient.get_task_status Raster.pydantic
    (demo_remote (status_body "banned" JNull)) demo_client "task-1"
  = Raise (PyErr ValueError).
Proof. reflexivity. Qed.

(** * Further properties of the code *)

(** ** Task creation *)

Lemma extract_task_id_obj d :
  (forall data v,
      dict_get "data" d = Some (JObj data) ->
      dict_get "task_id" data = Some v ->
      Tripo3DClient.extract_task_id (JObj d) = Ret v)
  /\ (no_nested_task_id d ->
      Tripo3DClient.extract_task_id (JObj d)
      = match dict_get "task_id" d with
        | Some v => Ret v
        | None => Raise (task_id_not_found (JObj d))
        end).
Proof.
  unfold Tripo3DClient.extract_task_id, task_id_not_found.
  cbn [py_in py_getitem lift bind]. unfold dict_has. split.
  - intros data v Hdata Hid. rewrite Hdata.
    cbn [py_in py_getitem lift bind]. unfold dict_has. rewrite Hid.
    reflexivity.
  - intros [Hdata | (data & Hdata & Hid)]; rewrite Hdata;
      cbn [py_in py_getitem lift bind]; unfold dict_has; rewrite ?Hid;
      cbn [lift bind]; destruct (dict_get "task_id" d); reflexivity.
Qed.

(** X1: in a 200 task-creation response with an object body, the id under
    [data] wins; when [data] is absent or is an object without [task_id], the
    top-level [task_id] is returned, and without one either the error is
    HTTP 500 with the payload. *)
Theorem create_task_id (R : Remote) (self : Tripo3DClient.t)
    (file_token : json) (request_params : ImageTo3DRequest)
    (response : Response) (d : dict) :
  post_task R (Tripo3DClient.api_key self)
    (Tripo3DClient.task_payload file_token request_params)
  = Responded response ->
  status_code response = 200 ->
  json_body response = Some (JObj d) ->
  (forall data v,
      dict_get "data" d = Some (JObj data) ->
      dict_get "task_id" data = Some v ->
      Tripo3DClient.create_task R self file_token request_params = Ret v)
  /\ (forall v,
        no_nested_task_id d ->
        dict_get "task_id" d = Some v ->
        Tripo3DClient.create_task R self file_token request_params = Ret v)
  /\ (no_nested_task_id d ->
      dict_get "task_id" d = None ->
      Tripo3DClient.create_task R self file_token request_params
      = Raise (task_id_not_found (JObj d))).
Proof.
  intros Hpost Hcode Hbody.
  unfold Tripo3DClient.create_task, response_json.
  rewrite Hpost, Hcode, Hbody. cbn [Z.eqb Pos.eqb negb lift bind].
  destruct (extract_task_id_obj d) as [Hnested Htop].
  split; [exact Hnested|]. split.
  - intros v Hno Hid. rewrite (Htop Hno), Hid. reflexivity.
  - intros Hno Hid. rewrite (Htop Hno), Hid. reflexivity.
Qed.

Lemma create_task_id_witness :
  Tripo3DClient.create_task
    (constant_remote (Responded (ok_response
       (JObj [("data", JObj [("status", JStr "ok")]);
              ("task_id", JStr "top-1")]))))
    demo_client (JStr "tok")
    (request_params_of "v2.0-20240919" None 1024 "none")
  = Ret (JStr "top-1").
Proof.
  refine (proj1 (proj2 (create_task_id
            (constant_remote (Responded (ok_response
               (JObj [("data", JObj [("status", JStr "ok")]);
                      ("task_id", JStr "top-1")]))))
            demo_client (JStr "tok")
            (request_params_of "v2.0-20240919" None 1024 "none")
            _ _ eq_refl eq_refl eq_refl)) (JStr "top-1") _ eq_refl).
  right. eexists. split; reflexivity.
Defined.

(** X2: the payload sent to create a task is the task type, the uploaded
    file and, only when some parameter is set, an "extra" object that holds
    the parameters that are set and nothing else: an empty string or a 0
    counts as unset, and so does the "none" of style and remesh. *)
Theorem task_payload_contents (file_token : json)
    (request_params : ImageTo3DRequest) :
  let payload := Tripo3DClient.task_payload file_token request_params in
  payload
  = JObj ([("type", JStr "image_to_model");
           ("file", JObj [("type", JStr "image");
                          ("file_token", file_token)])]
          ++ match sent_params request_params with
             | [] => []
             | extra => [("extra", JObj extra)]
             end)
  /\ (member "extra" payload = None <-> sent_params request_params = [])
  /\ extra_member "model_version" payload
     = sent_str false (model_version request_params)
  /\ extra_member "style" payload = sent_str true (style request_params)
  /\ extra_member "texture_resolution" payload
     = sent_int (texture_resolution request_params)
  /\ extra_member "remesh" payload = sent_str true (remesh request_params).
Proof.
  destruct request_params as [mv st tr rm].
  unfold Tripo3DClient.task_payload, Tripo3DClient.extra_of, extra_member,
    sent_params, sent_str, sent_int, truthy_ostr, truthy_oint, ostr_eqb.
  cbn [model_version style texture_resolution remesh].
  destruct mv as [mv|]; [destruct (String.eqb mv "")|];
    (destruct st as [st|];
     [destruct (String.eqb st ""), (String.eqb st "none")|]);
    (destruct tr as [tr|]; [destruct (tr =? 0)|]);
    (destruct rm as [rm|];
     [destruct (String.eqb rm ""), (String.eqb rm "none")|]);
    cbn; (split; [reflexivity|]); (split; [split; congruence|]);
    repeat split; reflexivity.
Qed.

(** X3: the four status strings and the enumeration correspond one to one:
    a member is found from its value, and a value that yields a member is
    that member's string exactly. *)
Theorem TaskStatus_round_trip (s : TaskStatus) (v : json) :
  TaskStatus_of (JStr (TaskStatus_value s)) = Ret s
  /\ (TaskStatus_of v = Ret s <-> v = JStr (TaskStatus_value s)).
Proof.
  assert (TaskStatus_of (JStr (TaskStatus_value s)) = Ret s) as Hto
    by (destruct s; reflexivity).
  split; [exact Hto|]. split.
  - apply TaskStatus_of_value.
  - intros ->. exact Hto.
Qed.

(** ** Status snapshots *)

Section SnapshotFacts.
Context `{Pydantic}.

Lemma validate_opt_dict_field k data o :
  validate_opt_dict (py_get data k) = Ret o -> o = dict_field k data.
Proof.
  unfold py_get, dict_field.
  destruct (dict_get k data) as [[]|]; cbn; congruence.
Qed.

Lemma snapshot_of_fields tid data t :
  Tripo3DClient.snapshot_of tid (JObj data) = Ret t ->
  input t = dict_field "input" data /\ output t = dict_field "output" data.
Proof.
  unfold Tripo3DClient.snapshot_of. intros Hs.
  bind_inv Hs as raw Hraw. bind_inv Hs as s Hstatus.
  bind_inv Hs as i Hi. bind_inv Hs as o Ho.
  bind_inv Hs as p Hp. bind_inv Hs as c Hc.
  injection Hs as <-. cbn.
  split; apply validate_opt_dict_field; assumption.
Qed.

End SnapshotFacts.

(** X4: a snapshot returned by the client carries the id that was asked
    for, whatever [data.task_id] says, and its input and output are the
    object members of [data] of those names (None when the member is absent
    or null). *)
Theorem snapshot_fields `{Pydantic} (R : Remote) (self : Tripo3DClient.t)
    (tid : string) (response : Response) (t : TaskResponse) :
  get_task R (Tripo3DClient.api_key self) tid = Responded response ->
  Tripo3DClient.get_task_status R self tid = Ret t ->
  task_id t = tid
  /\ exists data,
      json_body response ≫= member "data" = Some (JObj data)
      /\ input t = dict_field "input" data
      /\ output t = dict_field "output" data.
Proof.
  intros Hget. unfold Tripo3DClient.get_task_status. rewrite Hget.
  intros Hs. split; [apply (status_response_Ret _ _ _ Hs)|].
  unfold Tripo3DClient.status_response, response_json in Hs.
  destruct (negb _); [discriminate|].
  destruct (json_body response) as [result|]; [|discriminate].
  cbn [lift bind] in Hs.
  bind_inv Hs as has_data Hin. destruct has_data; [|discriminate].
  cbn [negb] in Hs. bind_inv Hs as data Hdata.
  apply lift_Ret in Hs, Hdata.
  destruct result as [| | | | | |d]; try discriminate.
  cbn in Hdata. destruct (dict_get "data" d) as [data'|] eqn:Hd;
    [|discriminate].
  injection Hdata as ->.
  destruct data as [| | | | | |data]; try discriminate.
  exists data. cbn. split; [exact Hd|].
  eapply snapshot_of_fields; eauto.
Qed.

Lemma snapshot_fields_witness :
  exists t,
    @Tripo3DClient.get_task_status Raster.pydantic
      (demo_remote foreign_status_body) demo_client "mine" = Ret t
    /\ task_id t = "mine".
Proof.
  eexists. split; [reflexivity|].
  exact (proj1 (@snapshot_fields Raster.pydantic
                  (demo_remote foreign_status_body) demo_client "mine"
                  _ _ eq_refl eq_refl)).
Defined.

(** ** What the handlers let out *)

Lemma guard_http_only {A} prefix (r : hres A) : http_only (guard prefix r).
Proof. destruct r as [a|[c d|e]]; exact I. Qed.

(** X5: the three handlers let no exception out but HTTPException: whatever
    the remote service answers and whatever fails inside, the outcome is a
    value or an HTTPException. *)
Theorem handlers_http_only `{PIL} `{Pydantic}
    (client : option Tripo3DClient.t) (R : Remote) (now : Z)
    (file : UploadFile) (mv : string) (st : option string) (tr : Z)
    (rm tid format : string) (w : World) :
  http_only (fst (convert_image_to_3d client R now file mv st tr rm w))
  /\ http_only (fst (get_task_status client R tid w))
  /\ http_only (fst (download_3d_model client R tid format w)).
Proof.
  split; [|split].
  - unfold convert_image_to_3d.
    destruct client as [c|]; [|exact I].
    destruct (_ || _); [exact I|]. destruct (_ && _); [exact I|].
    pose proof (guard_http_only [Lit "Internal error: "]
                  (convert_body R c now file mv st tr rm w)) as Hg.
    destruct (guard _ _) as [[body w']|e]; exact Hg.
  - unfold get_task_status. destruct client as [c|]; [|exact I].
    pose proof (guard_http_only [] (Tripo3DClient.get_task_status R c tid))
      as Hg.
    destruct (guard _ _) as [t|e]; [exact I | exact Hg].
  - unfold download_3d_model. destruct client as [c|]; [|exact I].
    match goal with
    | |- context [guard [] ?r] =>
        pose proof (guard_http_only [] r) as Hg;
        destruct (guard [] r) as [url|e]; [|exact Hg]
    end.
    destruct (Tripo3DClient.download_file _ _ _ _ _) as [[p|e] files'];
      [exact I|].
    apply (guard_http_only [] (Raise e)).
Qed.

(** ** Submission *)

Lemma wrong_content_type_test file :
  negb (truthy_ostr (content_type file))
  || negb (String.prefix "image/" (default "" (content_type file)))
  = wrong_content_type file.
Proof.
  unfold wrong_content_type, truthy_ostr.
  destruct (content_type file) as [ct|]; cbn; [|reflexivity].
  rewrite negb_involutive. reflexivity.
Qed.

Lemma declared_too_large_test file :
  truthy_oint (file_size file)
  && (default 0 (file_size file) >? 10 * 1024 * 1024)
  = declared_too_large file.
Proof.
  unfold declared_too_large, truthy_oint.
  destruct (file_size file) as [s|]; cbn; [|reflexivity].
  destruct (Z.eqb_spec s 0) as [->|_]; reflexivity.
Qed.

Lemma empty_body_test file :
  (length (file_read file) =? 0)%nat = empty_body file.
Proof. unfold empty_body. destruct (file_read file); reflexivity. Qed.

Lemma upload_name_test file :
  (if truthy_ostr (filename file) then default "" (filename file)
   else "image.jpg") = upload_name file.
Proof.
  unfold upload_name, truthy_ostr.
  destruct (filename file) as [name|]; [|reflexivity].
  cbn. destruct (String.eqb name ""); reflexivity.
Qed.

Lemma convert_body_Ret `{PIL} R c now file mv st tr rm w body w' :
  convert_body R c now file mv st tr rm w = Ret (body, w') ->
  exists id,
    body = JObj [("task_id", JStr id); ("status", JStr "queued");
                 ("message",
                  JStr "Image uploaded and conversion task started")]
    /\ task_storage w' = <[id := queued_snapshot id now]> (task_storage w)
    /\ background_tasks w' = background_tasks w ++ [id]
    /\ files w' = files w.
Proof.
  unfold convert_body. intros Hbody.
  destruct (_ =? _)%nat; [discriminate|].
  bind_inv Hbody as token Htoken. bind_inv Hbody as raw Hraw.
  bind_inv Hbody as id Hid. injection Hbody as <- <-.
  destruct raw; try discriminate. injection Hid as ->.
  exists id. repeat split.
Qed.

Lemma guard_Ret {A} prefix (r : hres A) a : guard prefix r = Ret a -> r = Ret a.
Proof. destruct r as [?|[]]; cbn; congruence. Qed.

(** X6: a submission that fails changes nothing; one that succeeds returns
    the task id with status "queued", stores the queued snapshot under that
    id, schedules one poller for it, and leaves the files alone. *)
Theorem submit_outcome `{PIL} (client : option Tripo3DClient.t) (R : Remote)
    (now : Z) (file : UploadFile) (mv : string) (st : option string)
    (tr : Z) (rm : string) (w : World) :
  match convert_image_to_3d client R now file mv st tr rm w with
  | (Raise _, w') => w' = w
  | (Ret body, w') =>
      exists id,
        body = JObj [("task_id", JStr id); ("status", JStr "queued");
                     ("message",
                      JStr "Image uploaded and conversion task started")]
        /\ task_storage w'
           = <[id := queued_snapshot id now]> (task_storage w)
        /\ background_tasks w' = background_tasks w ++ [id]
        /\ files w' = files w
  end.
Proof.
  unfold convert_image_to_3d.
  destruct client as [c|]; [|reflexivity].
  destruct (_ || _); [reflexivity|]. destruct (_ && _); [reflexivity|].
  destruct (guard _ _) as [[body w']|e] eqn:Hg; [|reflexivity].
  apply guard_Ret in Hg. eapply convert_body_Ret; eauto.
Qed.

(** X7: an upload whose content type is not image/..., whose declared size
    is above 10 MB, or whose body is empty is refused with a 400 that does
    not depend on the remote service, and nothing changes. *)
Theorem submit_refused_locally `{PIL} (client : Tripo3DClient.t)
    (file : UploadFile) :
  wrong_content_type file = true \/ declared_too_large file = true
  \/ empty_body file = true ->
  exists detail,
    forall (R : Remote) (now : Z) (mv : string) (st : option string)
           (tr : Z) (rm : string) (w : World),
      convert_image_to_3d (Some client) R now file mv st tr rm w
      = (Raise (HTTPException 400 detail), w).
Proof.
  intros Hbad. unfold convert_image_to_3d.
  rewrite wrong_content_type_test, declared_too_large_test.
  destruct (wrong_content_type file); [eexists; reflexivity|].
  destruct (declared_too_large file); [eexists; reflexivity|].
  destruct Hbad as [Hbad|[Hbad|Hbad]]; try discriminate.
  eexists. intros. unfold convert_body.
  rewrite empty_body_test, Hbad. reflexivity.
Qed.

Lemma submit_refused_locally_witness :
  exists detail,
    forall R now mv st tr rm w,
      @convert_image_to_3d Raster.pil (Some demo_client) R now
        oversized_upload mv st tr rm w
      = (Raise (HTTPException 400 detail), w).
Proof.
  apply (@submit_refused_locally Raster.pil demo_client oversized_upload).
  right. left. reflexivity.
Defined.

Lemma guard_surfaced {A} prefix (e : exn) :
  @guard A prefix (Raise e) = Raise (surfaced prefix e).
Proof. destruct e; reflexivity. Qed.

Section SubmitFacts.
Context `{PIL}.
Variables (c : Tripo3DClient.t) (R : Remote) (now : Z) (file : UploadFile)
  (mv : string) (st : option string) (tr : Z) (rm : string) (w : World).
Hypothesis Hchecks : passes_checks file.

Lemma submit_checked :
  convert_image_to_3d (Some c) R now file mv st tr rm w
  = match guard [Lit "Internal error: "]
            (convert_body R c now file mv st tr rm w) with
    | Ret (body, w') => (Ret body, w')
    | Raise e => (Raise e, w)
    end.
Proof.
  destruct Hchecks as (Hct & Hsize & _). unfold convert_image_to_3d.
  rewrite wrong_content_type_test, declared_too_large_test, Hct, Hsize.
  reflexivity.
Qed.

Lemma submit_upload_raises e :
  Tripo3DClient.upload_image R c (file_read file) (upload_name file)
  = Raise e ->
  convert_image_to_3d (Some c) R now file mv st tr rm w
  = (Raise (surfaced [Lit "Internal error: "] e), w).
Proof.
  intros Hup. rewrite submit_checked. unfold convert_body.
  destruct Hchecks as (_ & _ & Hbody).
  rewrite empty_body_test, Hbody, upload_name_test, Hup. cbn [bind].
  rewrite guard_surfaced. reflexivity.
Qed.

Lemma submit_create_raises token e :
  Tripo3DClient.upload_image R c (file_read file) (upload_name file)
  = Ret token ->
  Tripo3DClient.create_task R c token (request_params_of mv st tr rm)
  = Raise e ->
  convert_image_to_3d (Some c) R now file mv st tr rm w
  = (Raise (surfaced [Lit "Internal error: "] e), w).
Proof.
  intros Hup Hcreate. rewrite submit_checked. unfold convert_body.
  destruct Hchecks as (_ & _ & Hbody).
  rewrite empty_body_test, Hbody, upload_name_test, Hup. cbn [bind].
  rewrite Hcreate. cbn [bind].
  rewrite guard_surfaced. reflexivity.
Qed.

End SubmitFacts.

(** X8: when the upload passes the local checks and the upload or the task
    creation fails, the submission fails with that error (an HTTPException
    as it is, anything else as a 500 "Internal error") and nothing is
    stored or scheduled; a task id that is not a string is such a failure
    too. *)
Theorem submit_failure_surfaces `{PIL} (c : Tripo3DClient.t) (R : Remote)
    (now : Z) (file : UploadFile) (mv : string) (st : option string)
    (tr : Z) (rm : string) (w : World) :
  passes_checks file ->
  (forall e,
      Tripo3DClient.upload_image R c (file_read file) (upload_name file)
      = Raise e ->
      convert_image_to_3d (Some c) R now file mv st tr rm w
      = (Raise (surfaced [Lit "Internal error: "] e), w))
  /\ (forall token,
        Tripo3DClient.upload_image R c (file_read file) (upload_name file)
        = Ret token ->
        (forall e,
            Tripo3DClient.create_task R c token
              (request_params_of mv st tr rm) = Raise e ->
            convert_image_to_3d (Some c) R now file mv st tr rm w
            = (Raise (surfaced [Lit "Internal error: "] e), w))
        /\ (forall raw,
              Tripo3DClient.create_task R c token
                (request_params_of mv st tr rm) = Ret raw ->
              is_str raw = false ->
              convert_image_to_3d (Some c) R now file mv st tr rm w
              = (Raise (HTTPException 500
                          [Lit "Internal error: "; FmtErr ValidationError]),
                 w))).
Proof.
  intros Hchecks. split.
  - intros e. apply submit_upload_raises. exact Hchecks.
  - intros token Hup. split.
    + intros e. apply submit_create_raises; assumption.
    + intros raw Hcreate Hraw. rewrite submit_checked by exact Hchecks.
      unfold convert_body. destruct Hchecks as (_ & _ & Hbody).
      rewrite empty_body_test, Hbody, upload_name_test, Hup. cbn [bind].
      rewrite Hcreate. cbn [bind].
      destruct raw; try discriminate; reflexivity.
Qed.

Lemma submit_failure_surfaces_witness :
  @convert_image_to_3d Raster.pil (Some demo_client) silent_remote
    1700000000 demo_upload "v2.0-20240919" None 1024 "none" initial_world
  = (Raise (HTTPException 408 [Lit "Upload timeout"]), initial_world).
Proof.
  refine (proj1 (@submit_failure_surfaces Raster.pil demo_client
                   silent_remote 1700000000 demo_upload "v2.0-20240919"
                   None 1024 "none" initial_world _) _ eq_refl).
  repeat split.
Defined.

(** X9: the status code with which the remote service turns down the
    upload is the status code of the submission's failure, with the remote
    text in the detail; likewise for the task creation. *)
Theorem submit_upstream_status `{PIL} (c : Tripo3DClient.t) (R : Remote)
    (now : Z) (file : UploadFile) (mv : string) (st : option string)
    (tr : Z) (rm : string) (w : World) (response : Response) :
  passes_checks file ->
  status_code response <> 200 ->
  (post_upload R (Tripo3DClient.api_key c) (upload_name file)
     (optimize_image_for_upload (file_read file) 1024)
   = Responded response ->
   convert_image_to_3d (Some c) R now file mv st tr rm w
   = (Raise (HTTPException (status_code response)
               [Lit "Upload failed: Status "; FmtInt (status_code response);
                Lit ", Response: "; FmtStr (text response)]), w))
  /\ (forall token,
        Tripo3DClient.upload_image R c (file_read file) (upload_name file)
        = Ret token ->
        post_task R (Tripo3DClient.api_key c)
          (Tripo3DClient.task_payload token (request_params_of mv st tr rm))
        = Responded response ->
        convert_image_to_3d (Some c) R now file mv st tr rm w
        = (Raise (HTTPException (status_code response)
                    [Lit "Failed to create task: Status ";
                     FmtInt (status_code response);
                     Lit ", Response: "; FmtStr (text response)]), w)).
Proof.
  intros Hchecks Hcode.
  assert ((status_code response =? 200) = false) as Hne
    by (apply Z.eqb_neq; exact Hcode).
  split.
  - intros Hpost.
    rewrite (submit_upload_raises c R now file mv st tr rm w Hchecks
               (HTTPException (status_code response)
                  [Lit "Upload failed: Status ";
                   FmtInt (status_code response);
                   Lit ", Response: "; FmtStr (text response)]));
      [reflexivity|].
    unfold Tripo3DClient.upload_image, Tripo3DClient.upload_response.
    rewrite Hpost, Hne. reflexivity.
  - intros token Hup Hpost.
    rewrite (submit_create_raises c R now file mv st tr rm w Hchecks token
               (HTTPException (status_code response)
                  [Lit "Failed to create task: Status ";
                   FmtInt (status_code response);
                   Lit ", Response: "; FmtStr (text response)]));
      [reflexivity | exact Hup |].
    unfold Tripo3DClient.create_task. rewrite Hpost, Hne. reflexivity.
Qed.

Lemma submit_upstream_status_witness :
  @convert_image_to_3d Raster.pil (Some demo_client) refusing_remote
    1700000000 demo_upload "v2.0-20240919" None 1024 "none" initial_world
  = (Raise (HTTPException 401
              [Lit "Upload failed: Status "; FmtInt 401;
               Lit ", Response: "; FmtStr "invalid api key"]),
     initial_world).
Proof.
  refine (proj1 (@submit_upstream_status Raster.pil demo_client
                   refusing_remote 1700000000 demo_upload "v2.0-20240919"
                   None 1024 "none" initial_world
                   (plain_response 401 "invalid api key") _ _) eq_refl).
  - repeat split.
  - discriminate.
Defined.

(** ** Status query and download *)

(** X10: when the status cannot be fetched, the status query and the
    download fail alike, with the client's error (an HTTPException as it
    is, anything else as a 500), and change nothing. *)
Theorem fetch_failure_surfaces `{Pydantic} (c : Tripo3DClient.t)
    (R : Remote) (tid format : string) (w : World) (e : exn) :
  Tripo3DClient.get_task_status R c tid = Raise e ->
  get_task_status (Some c) R tid w = (Raise (surfaced [] e), w)
  /\ download_3d_model (Some c) R tid format w = (Raise (surfaced [] e), w).
Proof.
  intros Hfetch. unfold get_task_status, download_3d_model.
  rewrite Hfetch. cbn [bind]. rewrite !guard_surfaced. split; reflexivity.
Qed.

Lemma fetch_failure_surfaces_witness :
  @get_task_status Raster.pydantic (Some demo_client) silent_remote "task-1"
    initial_world
  = (Raise (HTTPException 408 [Lit "Status check timeout"]), initial_world).
Proof.
  exact (proj1 (@fetch_failure_surfaces Raster.pydantic demo_client
                  silent_remote "task-1" "glb" initial_world _ eq_refl)).
Defined.

(** X11: a status query that succeeds returns the snapshot the client
    fetched and leaves it in the task map under the id asked for, in place
    of what was there; the other entries, the scheduled pollers and the
    files stay as they were. One that fails changes nothing. *)
Theorem status_query_refreshes `{Pydantic}
    (client : option Tripo3DClient.t) (R : Remote) (tid : string)
    (w : World) :
  match get_task_status client R tid w with
  | (Ret t, w') =>
      (exists c, client = Some c
                 /\ Tripo3DClient.get_task_status R c tid = Ret t)
      /\ task_storage w' !! tid = Some t
      /\ (forall k, k <> tid -> task_storage w' !! k = task_storage w !! k)
      /\ background_tasks w' = background_tasks w
      /\ files w' = files w
  | (Raise _, w') => w' = w
  end.
Proof.
  unfold get_task_status. destruct client as [c|]; [|reflexivity].
  destruct (Tripo3DClient.get_task_status R c tid) as [t|[code d|e]] eqn:Hs;
    cbn; try reflexivity.
  split; [eauto|]. split; [apply lookup_insert_eq|].
  split; [|split; reflexivity].
  intros k Hk. apply lookup_insert_ne. congruence.
Qed.

(** X12: a turn of the poller and a status query on the same answer of the
    remote service leave the same task map. *)
Theorem poll_turn_as_status_query `{PIL} `{Pydantic}
    (client : option Tripo3DClient.t) (R : Remote) (tid : string)
    (att : Z) (w : World) :
  task_storage (run_op client (OpPollTurn R tid att) w)
  = task_storage (run_op client (OpStatus R tid) w).
Proof.
  cbn [run_op]. unfold monitor_iteration, get_task_status.
  destruct client as [c|]; [|reflexivity].
  destruct (Tripo3DClient.get_task_status R c tid) as [t|[code d|e]];
    cbn; try reflexivity.
  destruct (terminal (status t)); reflexivity.
Qed.


(** X14: when the task has succeeded, its urls hold the format as a string
    and the file server answers 200, the download writes the body it got
    to downloads/<task id>.<format> and serves that file, provided the disk
    takes the file; when the file cannot be opened (a format with a "/" in
    it, say) the download fails with a 500 and leaves no file. *)
Theorem download_serves_file `{Pydantic} (c : Tripo3DClient.t) (R : Remote)
    (tid format : string) (w : World) (t : TaskResponse) (urls : dict)
    (url : string) (response : Response) :
  Tripo3DClient.get_task_status R c tid = Ret t ->
  status t = SUCCESS ->
  model_urls t = Some (JObj urls) ->
  dict_get format urls = Some (JStr url) ->
  get_url R (JStr url) = Ret (Responded response) ->
  status_code response = 200 ->
  let file_path := ("downloads/" ++ tid ++ "." ++ format)%string in
  (disk_write R file_path (content response) = Saved ->
   download_3d_model (Some c) R tid format w
   = (Ret {| path := file_path;
             media_type := "application/octet-stream";
             download_name := (tid ++ "." ++ format)%string |},
      {| task_storage := task_storage w;
         background_tasks := background_tasks w;
         files := <[file_path := content response]> (files w) |}))
  /\ (forall e,
        disk_write R file_path (content response) = Failed e None ->
        download_3d_model (Some c) R tid format w
        = (Raise (HTTPException 500 [FmtErr e]),
           {| task_storage := task_storage w;
              background_tasks := background_tasks w;
              files := files w |})).
Proof.
  intros Hfetch Hstatus Hurls Hfmt Hget Hcode file_path.
  unfold download_3d_model. rewrite Hfetch. cbn [bind].
  unfold download_url_of. rewrite Hstatus. cbn [TaskStatus_eqb negb].
  unfold model_urls in Hurls.
  destruct (output t) as [out|]; [|discriminate]. cbn in Hurls.
  destruct (dict_get "model" out) as [model|] eqn:Hmodel; [|discriminate].
  cbn in Hurls. destruct out as [|kv out]; [discriminate|].
  unfold dict_has. rewrite Hmodel. cbn [negb py_getitem lift bind].
  rewrite Hmodel. cbn [lift bind].
  destruct model; try discriminate. cbn in Hurls.
  cbn [py_getitem]. rewrite Hurls. cbn [lift bind py_in py_getitem].
  unfold dict_has. rewrite Hfmt. cbn [negb lift guard].
  unfold Tripo3DClient.download_file. rewrite Hget, Hcode.
  cbn [Z.eqb Pos.eqb negb]. fold file_path. split.
  - intros ->. reflexivity.
  - intros e ->. reflexivity.
Qed.

Lemma download_serves_file_witness :
  fst (@download_3d_model Raster.pydantic (Some demo_client)
         (demo_remote (status_body "success" glb_output)) "task-1" "glb"
         initial_world)
  = Ret {| path := "downloads/task-1.glb";
           media_type := "application/octet-stream";
           download_name := "task-1.glb" |}.
Proof.
  exact (f_equal fst
           (proj1 (@download_serves_file Raster.pydantic demo_client
                     (demo_remote (status_body "success" glb_output))
                     "task-1" "glb" initial_world _ _ _ _
                     eq_refl eq_refl eq_refl eq_refl eq_refl eq_refl)
              eq_refl)).
Defined.

Example download_nested_format :
  @download_3d_model Raster.pydantic (Some demo_client)
    (demo_remote
       (status_body "success"
          (JObj [("model",
                  JObj [("urls", JObj [("a/b", JStr "https://cdn/m")])])])))
    "task-1" "a/b" initial_world
  = (Raise (HTTPException 500
              [FmtErr (OtherError "FileNotFoundError"
                         "downloads/task-1.a/b")]),
     initial_world).
Proof. reflexivity. Qed.

(** ** Poller *)

Lemma slept_app tr1 tr2 : slept (tr1 ++ tr2) = slept tr1 + slept tr2.
Proof.
  induction tr1 as [|[r|s|] tr1 IH]; cbn [app slept]; lia.
Qed.

Section PollerEffects.
Context `{Pydantic}.
Variables (client : option Tripo3DClient.t) (remote : nat -> Remote)
  (tid : string).

Lemma iteration_effects R st :
  let '(fl, st') := monitor_iteration client R tid st in
  (forall k, k <> tid -> storage st' !! k = storage st !! k)
  /\ (forall k, is_Some (storage st !! k) -> is_Some (storage st' !! k))
  /\ match fl with
     | Break => attempt st' = attempt st /\ slept (trace st') = slept (trace st)
     | Continue =>
         attempt st' = attempt st + 1
         /\ slept (trace st') = slept (trace st) + 5
     end.
Proof.
  unfold monitor_iteration. destruct client as [c|]; [|cbn; auto].
  destruct (Tripo3DClient.get_task_status R c tid) as [t|e].
  - assert (forall k, k <> tid ->
            <[tid := t]> (storage st) !! k = storage st !! k) as Hother
      by (intros k Hk; apply lookup_insert_ne; congruence).
    assert (forall k, is_Some (storage st !! k) ->
            is_Some (<[tid := t]> (storage st) !! k)) as Hkeep.
    { intros k Hk. destruct (decide (k = tid)) as [->|Hne].
      - rewrite lookup_insert_eq. eauto.
      - rewrite Hother; assumption. }
    destruct (terminal (status t)); cbn [storage attempt trace];
      rewrite slept_app; cbn; repeat split; auto; lia.
  - cbn [storage attempt trace]. rewrite slept_app. cbn.
    repeat split; auto; lia.
Qed.

Lemma monitor_loop_effects fuel : forall st st',
  monitor_loop client remote tid fuel st = Some st' ->
  attempt st <= max_attempts ->
  (forall k, k <> tid -> storage st' !! k = storage st !! k)
  /\ (forall k, is_Some (storage st !! k) -> is_Some (storage st' !! k))
  /\ attempt st' <= max_attempts
  /\ slept (trace st') - 5 * attempt st'
     = slept (trace st) - 5 * attempt st.
Proof.
  induction fuel as [|fuel IH]; intros st st'; [discriminate|].
  cbn [monitor_loop].
  destruct (Z.ltb_spec (attempt st) max_attempts) as [Hlt|Hge];
    [|intros [= <-]; auto].
  pose proof (iteration_effects (remote (queries (trace st))) st) as Hit.
  destruct (monitor_iteration _ _ _ _) as [[] st1];
    destruct Hit as (Hother & Hkeep & Hatt & Hslept).
  - intros [= <-] _. repeat split; auto; lia.
  - intros Hloop _. apply IH in Hloop as (Ho & Hk & Ha & Hs); [|lia].
    repeat split.
    + intros k Hne. rewrite Ho, Hother; auto.
    + auto.
    + exact Ha.
    + lia.
Qed.

End PollerEffects.

(** X15: a poller changes no entry of the task map but the one of its own
    task, and removes none. *)
Theorem poller_keeps_to_its_task `{Pydantic}
    (client : option Tripo3DClient.t) (remote : nat -> Remote)
    (tid : string) (fuel : nat) (storage0 : gmap string TaskResponse)
    (st : PollState) :
  monitor_task_progress client remote tid fuel storage0 = Some st ->
  (forall k, k <> tid -> storage st !! k = storage0 !! k)
  /\ (forall k, is_Some (storage0 !! k) -> is_Some (storage st !! k)).
Proof.
  unfold monitor_task_progress.
  destruct (monitor_loop _ _ _ _ _) as [st1|] eqn:Hloop; [|discriminate].
  intros [= <-].
  apply monitor_loop_effects in Hloop as (Ho & Hk & _);
    [|cbn; unfold max_attempts; lia].
  unfold warn_if_exhausted. destruct (_ >=? _); cbn; auto.
Qed.

Lemma poller_keeps_to_its_task_witness :
  exists st,
    @monitor_task_progress Raster.pydantic (Some demo_client)
      progressing_remote "task-1" 121
      {["task-0" := queued_snapshot "task-0" 1700000000]} = Some st
    /\ storage st !! "task-0" = Some (queued_snapshot "task-0" 1700000000).
Proof.
  destruct (@monitor_task_progress Raster.pydantic (Some demo_client)
              progressing_remote "task-1" 121
              {["task-0" := queued_snapshot "task-0" 1700000000]})
    as [st|] eqn:Hrun; [|vm_compute in Hrun; discriminate].
  exists st. split; [reflexivity|].
  rewrite (proj1 (@poller_keeps_to_its_task Raster.pydantic
                    (Some demo_client) progressing_remote "task-1" 121
                    _ st Hrun) "task-0"); [reflexivity | discriminate].
Defined.

(** X16: a poller sleeps five seconds after every query that does not end
    it and at no other time, so that it has slept five seconds per attempt
    counted and 600 seconds at most when it stops. *)
Theorem poller_sleep_budget `{Pydantic} (client : option Tripo3DClient.t)
    (remote : nat -> Remote) (tid : string) (fuel : nat)
    (storage0 : gmap string TaskResponse) (st : PollState) :
  monitor_task_progress client remote tid fuel storage0 = Some st ->
  slept (trace st) = 5 * attempt st /\ slept (trace st) <= 600.
Proof.
  unfold monitor_task_progress.
  destruct (monitor_loop _ _ _ _ _) as [st1|] eqn:Hloop; [|discriminate].
  intros [= <-].
  apply monitor_loop_effects in Hloop as (_ & _ & Ha & Hs);
    [|cbn; unfold max_attempts; lia].
  cbn in Hs. unfold max_attempts in Ha.
  assert (slept (trace (warn_if_exhausted st1)) = slept (trace st1)
          /\ attempt (warn_if_exhausted st1) = attempt st1) as [-> ->].
  { unfold warn_if_exhausted. destruct (_ >=? _); cbn; [|auto].
    rewrite slept_app. cbn. split; lia. }
  lia.
Qed.

Lemma poller_sleep_budget_witness :
  exists st,
    @monitor_task_progress Raster.pydantic (Some demo_client)
      progressing_remote "task-1" 121 ∅ = Some st
    /\ slept (trace st) = 5 * attempt st /\ slept (trace st) <= 600.
Proof.
  destruct (@monitor_task_progress Raster.pydantic (Some demo_client)
              progressing_remote "task-1" 121 ∅)
    as [st|] eqn:Hrun; [|vm_compute in Hrun; discriminate].
  exists st. split; [reflexivity|].
  exact (@poller_sleep_budget Raster.pydantic (Some demo_client)
           progressing_remote "task-1" 121 ∅ st Hrun).
Defined.

(** ** The task map over time *)

Section WorldFacts.
Context `{PIL} `{Pydantic}.
Variable client : option Tripo3DClient.t.

Lemma convert_world R now file mv st tr rm w :
  let w' := snd (convert_image_to_3d client R now file mv st tr rm w) in
  w' = w
  \/ exists id,
      task_storage w' = <[id := queued_snapshot id now]> (task_storage w)
      /\ background_tasks w' = background_tasks w ++ [id].
Proof.
  unfold convert_image_to_3d.
  destruct client as [c|]; [|left; reflexivity].
  destruct (_ || _); [left; reflexivity|].
  destruct (_ && _); [left; reflexivity|].
  destruct (guard _ _) as [[body w']|e] eqn:Hg; [|left; reflexivity].
  apply guard_Ret, convert_body_Ret in Hg as (id & _ & Hs & Hb & _).
  right. exists id. split; assumption.
Qed.

Lemma status_world R tid w :
  let w' := snd (get_task_status client R tid w) in
  background_tasks w' = background_tasks w
  /\ (w' = w \/ exists t, task_storage w' = <[tid := t]> (task_storage w)).
Proof.
  unfold get_task_status.
  destruct client as [c|];
    [|cbn; split; [reflexivity | left; reflexivity]].
  destruct (guard _ _) as [t|e]; cbn;
    [|split; [reflexivity | left; reflexivity]].
  split; [reflexivity|]. right. exists t. reflexivity.
Qed.

Lemma download_world R tid format w :
  let w' := snd (download_3d_model client R tid format w) in
  task_storage w' = task_storage w
  /\ background_tasks w' = background_tasks w.
Proof.
  unfold download_3d_model.
  destruct client as [c|]; [|cbn; split; reflexivity].
  destruct (guard _ _) as [url|e]; [|cbn; split; reflexivity].
  destruct (Tripo3DClient.download_file _ _ _ _ _) as [[p|e] files'];
    cbn; split; reflexivity.
Qed.

Lemma insert_keeps (m : gmap string TaskResponse) k k' t :
  is_Some (m !! k) -> is_Some (<[k' := t]> m !! k).
Proof.
  intros Hk. destruct (decide (k' = k)) as [->|Hne].
  - rewrite lookup_insert_eq. eauto.
  - rewrite lookup_insert_ne; assumption.
Qed.

Lemma run_op_keeps o w k :
  is_Some (task_storage w !! k) ->
  is_Some (task_storage (run_op client o w) !! k).
Proof.
  intros Hk.
  destruct o as [R now file mv st tr rm | R tid | R tid format
                | R tid att | remote tid fuel]; cbn [run_op].
  - destruct (convert_world R now file mv st tr rm w)
      as [-> | (id & -> & _)]; [exact Hk | apply insert_keeps, Hk].
  - destruct (status_world R tid w) as [_ [-> | (t & ->)]];
      [exact Hk | apply insert_keeps, Hk].
  - destruct (download_world R tid format w) as [-> _]. exact Hk.
  - pose proof (iteration_effects client tid R
                  {| attempt := att; storage := task_storage w;
                     trace := [] |}) as Hit.
    destruct (monitor_iteration _ _ _ _) as [fl st'].
    destruct Hit as (_ & Hkeep & _). cbn. apply Hkeep, Hk.
  - destruct (monitor_task_progress _ _ _ _ _) as [st|] eqn:Hrun;
      [|exact Hk].
    cbn. unfold monitor_task_progress in Hrun.
    destruct (monitor_loop _ _ _ _ _) as [st1|] eqn:Hloop; [|discriminate].
    injection Hrun as <-.
    apply monitor_loop_effects in Hloop as (_ & Hkeep & _);
      [|cbn; unfold max_attempts; lia].
    unfold warn_if_exhausted. destruct (_ >=? _); cbn; apply Hkeep, Hk.
Qed.

Lemma run_op_background o w :
  background_tasks (run_op client o w) = background_tasks w
  \/ exists id,
      background_tasks (run_op client o w) = background_tasks w ++ [id]
      /\ is_Some (task_storage (run_op client o w) !! id).
Proof.
  destruct o as [R now file mv st tr rm | R tid | R tid format
                | R tid att | remote tid fuel]; cbn [run_op].
  - destruct (convert_world R now file mv st tr rm w)
      as [-> | (id & Hs & Hb)]; [left; reflexivity|].
    right. exists id. split; [exact Hb|].
    rewrite Hs, lookup_insert_eq. eauto.
  - left. apply status_world.
  - left. apply download_world.
  - left. reflexivity.
  - left. destruct (monitor_task_progress _ _ _ _ _); reflexivity.
Qed.

Lemma run_op_scheduled o w :
  scheduled_are_stored w -> scheduled_are_stored (run_op client o w).
Proof.
  intros Hw id Hin.
  destruct (run_op_background o w) as [Hb | (id' & Hb & Hnew)];
    rewrite Hb in Hin.
  - apply run_op_keeps, Hw, Hin.
  - apply in_app_iff in Hin as [Hin|[<-|[]]].
    + apply run_op_keeps, Hw, Hin.
    + exact Hnew.
Qed.

End WorldFacts.

(** X17: no handler and no poller removes an entry of the task map: a task
    that is in it stays in it, whatever is done next. *)
Theorem tasks_never_dropped `{PIL} `{Pydantic}
    (client : option Tripo3DClient.t) (ops : list op) (w : World)
    (k : string) :
  is_Some (task_storage w !! k) ->
  is_Some (task_storage (run_ops client ops w) !! k).
Proof.
  unfold run_ops. revert w.
  induction ops as [|o ops IH]; intros w Hk; [exact Hk|].
  cbn [fold_left]. apply IH, run_op_keeps, Hk.
Qed.

Lemma tasks_never_dropped_witness :
  is_Some
    (task_storage
       (@run_ops Raster.pil Raster.pydantic (Some demo_client)
          [OpStatus silent_remote "task-1";
           OpPollTurn (demo_remote (status_body "failed" JNull)) "task-1" 0;
           OpDownload silent_remote "task-1" "glb"]
          {| task_storage := {["task-1" := queued_snapshot "task-1" 0]};
             background_tasks := ["task-1"]; files := ∅ |})
     !! "task-1").
Proof.
  apply (@tasks_never_dropped Raster.pil Raster.pydantic).
  cbn [task_storage]. rewrite lookup_singleton_eq. eauto.
Defined.

(** X18: from start-up on, every task for which a poller was scheduled has
    an entry in the task map. *)
Theorem scheduled_tasks_are_stored `{PIL} `{Pydantic}
    (client : option Tripo3DClient.t) (ops : list op) :
  scheduled_are_stored (run_ops client ops initial_world).
Proof.
  unfold run_ops.
  assert (scheduled_are_stored initial_world) as Hinit by (intros id []).
  revert Hinit. generalize initial_world.
  induction ops as [|o ops IH]; intros w Hw; [exact Hw|].
  cbn [fold_left]. apply IH, run_op_scheduled, Hw.
Qed.

(** ** Start-up *)

(** X19: no client is built without a key or with an empty one, and then
    every handler answers 500 "not configured" and changes nothing; the
    health check reports [api_configured] for every key that is set, the
    empty one included. *)
Theorem unconfigured_key `{PIL} `{Pydantic} (key : option string) :
  (tripo3d_client key = None <-> key = None \/ key = Some "")
  /\ (api_configured (root key) = Some (JBool true) <-> key <> None)
  /\ (tripo3d_client key = None ->
      forall R now file mv st tr rm tid format w,
        convert_image_to_3d (tripo3d_client key) R now file mv st tr rm w
        = (Raise not_configured, w)
        /\ get_task_status (tripo3d_client key) R tid w
           = (Raise not_configured, w)
        /\ download_3d_model (tripo3d_client key) R tid format w
           = (Raise not_configured, w)).
Proof.
  split; [|split].
  - unfold tripo3d_client, truthy_ostr. destruct key as [k|]; cbn.
    + destruct (String.eqb_spec k "") as [->|Hne]; cbn.
      * split; auto.
      * split; [discriminate|]. intros [|[= ->]]; congruence.
    + split; auto.
  - unfold api_configured, root. cbn. destruct key; split; congruence.
  - intros Hnone R now file mv st tr rm tid format w. rewrite Hnone.
    repeat split.
Qed.

Lemma unconfigured_key_witness :
  api_configured (root (Some "")) = Some (JBool true)
  /\ @get_task_status Raster.pydantic (tripo3d_client (Some ""))
       silent_remote "task-1" initial_world
     = (Raise not_configured, initial_world).
Proof.
  destruct (@unconfigured_key Raster.pil Raster.pydantic (Some ""))
    as (_ & Hflag & Hall).
  split.
  - apply Hflag. discriminate.
  - apply (Hall eq_refl silent_remote 0 demo_upload "" None 0 "" "task-1"
             "glb" initial_world).
Defined.

(** ** Upload *)

(** X20: an image that cannot be decoded is uploaded as it came: the
    outcome of the upload is what the remote service answers to the
    original bytes. *)
Theorem undecodable_is_uploaded_raw `{PIL} (R : Remote)
    (self : Tripo3DClient.t) (image_data : bytes) (name : string)
    (e : pyerr) (response : Response) :
  Image_open image_data = Raise e ->
  post_upload R (Tripo3DClient.api_key self) name image_data
  = Responded response ->
  Tripo3DClient.upload_image R self image_data name
  = Tripo3DClient.upload_response response.
Proof.
  intros Hopen Hpost. unfold Tripo3DClient.upload_image.
  replace (optimize_image_for_upload image_data 1024) with image_data.
  - rewrite Hpost. reflexivity.
  - unfold optimize_image_for_upload, optimize_body, normalized_image.
    rewrite Hopen. reflexivity.
Qed.

Lemma undecodable_is_uploaded_raw_witness :
  @Tripo3DClient.upload_image Raster.pil (demo_remote JNull) demo_client
    [Byte.x47; Byte.x49; Byte.x46] "anim.gif"
  = Ret (JStr "tok").
Proof.
  exact (@undecodable_is_uploaded_raw Raster.pil (demo_remote JNull)
           demo_client [Byte.x47; Byte.x49; Byte.x46] "anim.gif"
           _ _ eq_refl eq_refl).
Defined.

(** X21: an image in mode RGB or L that is within the maximum goes to the
    encoder as it was opened: no conversion, no paste, no resize. *)
Theorem plain_image_only_encoded `{PIL} (image_data : bytes) (max_size : Z)
    (img : Image) :
  Image_open image_data = Ret img ->
  mode img = "RGB" \/ mode img = "L" ->
  max_dim (size img) <= max_size ->
  normalized_image image_data max_size = Ret img
  /\ optimize_body image_data max_size = encode img.
Proof.
  intros Hopen Hmode Hfit.
  assert (to_rgb img = Ret img) as Hrgb.
  { unfold to_rgb, mode_in. destruct Hmode as [-> | ->]; reflexivity. }
  assert (normalized_image image_data max_size = Ret img) as Hnorm.
  { unfold normalized_image. rewrite Hopen. cbn [bind]. rewrite Hrgb.
    cbn [bind]. unfold resize_if_large.
    destruct (Z.gtb_spec (max_dim (size img)) max_size); [lia|reflexivity]. }
  split; [exact Hnorm|]. unfold optimize_body. rewrite Hnorm. reflexivity.
Qed.

Lemma plain_image_only_encoded_witness :
  @normalized_image Raster.pil (Raster.header 4 false 640 480) 1024
  = Ret {| Raster.im_mode := "L"; Raster.im_size := (640, 480);
           Raster.im_transparency := false |}.
Proof.
  refine (proj1 (@plain_image_only_encoded Raster.pil
                   (Raster.header 4 false 640 480) 1024 _ eq_refl _ _)).
  - right. reflexivity.
  - vm_compute. discriminate.
Defined.

(** X22: a 200 answer to the upload whose body is not JSON, or is JSON but
    null, a boolean or a number, is not an HTTP error for the client: the
    submission reports it as a 500 "Internal error" and stores nothing. *)
Theorem garbled_upload_answer `{PIL} (c : Tripo3DClient.t) (R : Remote)
    (now : Z) (file : UploadFile) (mv : string) (st : option string)
    (tr : Z) (rm : string) (w : World) (response : Response) :
  passes_checks file ->
  post_upload R (Tripo3DClient.api_key c) (upload_name file)
    (optimize_image_for_upload (file_read file) 1024)
  = Responded response ->
  status_code response = 200 ->
  (json_body response = None ->
   convert_image_to_3d (Some c) R now file mv st tr rm w
   = (Raise (HTTPException 500
               [Lit "Internal error: "; FmtErr JSONDecodeError]), w))
  /\ (forall j, json_body response = Some j -> scalar j = true ->
      convert_image_to_3d (Some c) R now file mv st tr rm w
      = (Raise (HTTPException 500 [Lit "Internal error: "; FmtErr TypeError]),
         w)).
Proof.
  intros Hchecks Hpost Hcode. split.
  - intros Hbody.
    rewrite (submit_upload_raises c R now file mv st tr rm w Hchecks
               (PyErr JSONDecodeError)); [reflexivity|].
    unfold Tripo3DClient.upload_image, Tripo3DClient.upload_response,
      response_json.
    rewrite Hpost, Hcode, Hbody. reflexivity.
  - intros j Hbody Hscalar.
    rewrite (submit_upload_raises c R now file mv st tr rm w Hchecks
               (PyErr TypeError)); [reflexivity|].
    unfold Tripo3DClient.upload_image, Tripo3DClient.upload_response,
      response_json.
    rewrite Hpost, Hcode, Hbody.
    destruct j; try discriminate; reflexivity.
Qed.

Lemma garbled_upload_answer_witness :
  @convert_image_to_3d Raster.pil (Some demo_client) garbled_remote
    1700000000 demo_upload "v2.0-20240919" None 1024 "none" initial_world
  = (Raise (HTTPException 500
              [Lit "Internal error: "; FmtErr JSONDecodeError]),
     initial_world).
Proof.
  refine (proj1 (@garbled_upload_answer Raster.pil demo_client
                   garbled_remote 1700000000 demo_upload "v2.0-20240919"
                   None 1024 "none" initial_world
                   (plain_response 200 "<html>ok</html>") _ eq_refl eq_refl)
            eq_refl).
  repeat split.
Defined.

Lemma paced_rounds rs tail : paced (rounds rs ++ tail) = paced tail.
Proof.
  induction rs as [|r rs IH]; [reflexivity|].
  unfold rounds in *. cbn [map concat app]. exact IH.
Qed.

Lemma rounds_snoc rs r : rounds (rs ++ [r]) = rounds rs ++ [Polled r; Slept 5].
Proof.
  unfold rounds. rewrite map_app, concat_app. cbn. reflexivity.
Qed.

Section PollerPace.
Context `{Pydantic}.
Variables (client : option Tripo3DClient.t) (remote : nat -> Remote)
  (tid : string).

Lemma monitor_loop_rounds fuel : forall st st' rs,
  trace st = rounds rs ->
  monitor_loop client remote tid fuel st = Some st' ->
  exists rs',
    trace st' = rounds rs'
    \/ (attempt st' < max_attempts
        /\ exists t, trace st' = rounds rs' ++ [Polled (Ret t)]).
Proof.
  induction fuel as [|fuel IH]; intros st st' rs Htr; [discriminate|].
  cbn [monitor_loop].
  destruct (Z.ltb_spec (attempt st) max_attempts) as [Hlt|Hge];
    [|intros [= <-]; eauto].
  unfold monitor_iteration. destruct client as [c|];
    [|intros [= <-]; eauto].
  destruct (Tripo3DClient.get_task_status _ c tid) as [t|e].
  - destruct (terminal (status t)).
    + intros [= <-]. cbn [trace attempt]. rewrite Htr. eauto.
    + apply (IH _ _ (rs ++ [Ret t])). cbn [trace].
      rewrite Htr, rounds_snoc. reflexivity.
  - apply (IH _ _ (rs ++ [Raise e])). cbn [trace].
    rewrite Htr, rounds_snoc. reflexivity.
Qed.

End PollerPace.

(** X23: a poller never makes two status queries in a row: every query but
    the last one of its trace is followed at once by a sleep of five
    seconds, and the timeout warning, when there is one, ends the trace. *)
Theorem poller_is_paced `{Pydantic} (client : option Tripo3DClient.t)
    (remote : nat -> Remote) (tid : string) (fuel : nat)
    (storage0 : gmap string TaskResponse) (st : PollState) :
  monitor_task_progress client remote tid fuel storage0 = Some st ->
  paced (trace st) = true.
Proof.
  unfold monitor_task_progress.
  destruct (monitor_loop _ _ _ _ _) as [st1|] eqn:Hloop; [|discriminate].
  intros [= <-].
  apply (monitor_loop_rounds client remote tid fuel _ _ []) in Hloop
    as (rs & [Htr | (Hlt & t & Htr)]); [| |reflexivity].
  - unfold warn_if_exhausted. destruct (_ >=? _); cbn [trace]; rewrite Htr.
    + apply paced_rounds.
    + rewrite <- (app_nil_r (rounds rs)). apply paced_rounds.
  - unfold warn_if_exhausted.
    destruct (Z.geb_spec (attempt st1) max_attempts); [lia|].
    rewrite Htr. apply paced_rounds.
Qed.

Lemma poller_is_paced_witness :
  exists st,
    @monitor_task_progress Raster.pydantic (Some demo_client)
      progressing_remote "task-1" 121 ∅ = Some st
    /\ paced (trace st) = true.
Proof.
  destruct (@monitor_task_progress Raster.pydantic (Some demo_client)
              progressing_remote "task-1" 121 ∅)
    as [st|] eqn:Hrun; [|vm_compute in Hrun; discriminate].
  exists st. split; [reflexivity|].
  exact (@poller_is_paced Raster.pydantic (Some demo_client)
           progressing_remote "task-1" 121 ∅ st Hrun).
Defined.
